(** * caps-controller-manager: the process bootstrap of [main.go]

    A shallow embedding of [app/caps-controller-manager/main.go] and the
    properties of its start-up sequence: flag defaults, the options handed to
    the manager constructor, the two event broadcasters, the mode switch
    between reconcilers and webhooks, and the fatal error paths.

    The program calls into libraries (flag, controller-runtime, client-go,
    go-debug) whose results are not decided by this file.  Every such result
    is read from an environment [Env]; each call appends one event to the
    calling thread's trace.  The debug goroutine shares nothing with [main]
    but the logger and the process itself, so an execution of the process is
    an interleaving of the two threads' event sequences, cut at the first
    [os.Exit]. *)

From Stdlib Require Import List String ZArith Bool Arith Lia.
Import ListNotations.
Open Scope string_scope.
Open Scope list_scope.

Set Implicit Arguments.

(** ** Values the program passes around *)

(** Go's [error], by its message. *)
Definition Error := string.

(** The type groups added to the scheme by the [AddToScheme] functions. *)
Inductive TypeGroup :=
| clientgoscheme | capiv1 | infrav1alpha2 | infrav1alpha3 | metalv1alpha1.

Definition Scheme := list TypeGroup.

Definition NewScheme : Scheme := [].

(** [AddToScheme] adds a group's kinds.  It returns an error, which [init]
    drops; the scheme here records the groups [init] asks for, whatever the
    library then does with each. *)
Definition AddToScheme (g : TypeGroup) (s : Scheme) : Scheme := s ++ [g].

(** A logr logger, by the names given to it with [WithName]. *)
Definition Logger := list string.

Definition ctrl_Log : Logger := [].

Definition WithName (l : Logger) (name : string) : Logger := l ++ [name].

Inductive LogEntry :=
| LogInfo (l : Logger) (msg : string)
| LogError (l : Logger) (err : Error) (msg : string) (keysAndValues : list string).

(** [rest.Config], the connection settings of the cluster API. *)
Record RestConfig := { Host : string }.

Definition BroadcasterId := nat.

(** [record.CorrelatorOptions]; only [BurstSize] is ever set.  Go's zero
    value [0] stands for "not set": the library then uses its own default. *)
Record CorrelatorOptions := { BurstSize : Z }.

Definition defaultCorrelatorOptions : CorrelatorOptions := {| BurstSize := 0 |}.

(** [ctrl.Options], with the fields [main] sets. *)
Record Options := {
  opt_Scheme : Scheme;
  MetricsBindAddress : string;
  LeaderElection : bool;
  LeaderElectionID : string;
  Port : Z;
  EventBroadcaster : BroadcasterId
}.

(** A manager is known by what it was built from; its getters read it back. *)
Record Manager := { mgr_config : RestConfig; mgr_options : Options }.

Inductive Client := ClientOf (m : Manager).

Definition GetConfig (m : Manager) : RestConfig := mgr_config m.
Definition GetScheme (m : Manager) : Scheme := opt_Scheme (mgr_options m).
Definition GetClient (m : Manager) : Client := ClientOf m.

Record Clientset := { cs_config : RestConfig }.

(** [clientset.CoreV1().Events(namespace)] *)
Record EventInterface := { ev_clientset : Clientset; ev_namespace : string }.

Definition CoreV1_Events (c : Clientset) (namespace : string) : EventInterface :=
  {| ev_clientset := c; ev_namespace := namespace |}.

Record EventSinkImpl := { Interface : EventInterface }.

Record EventSource := { Component : string }.

(** A recorder is known by the broadcaster that made it and what it was
    made with. *)
Record Recorder := {
  rec_broadcaster : BroadcasterId;
  rec_scheme : Scheme;
  rec_source : EventSource
}.

(** The three reconciler structs, with the fields the source fills in. *)
Inductive Reconciler :=
| MetalClusterReconciler (Client : Client) (Log : Logger) (Scheme : Scheme)
| MetalMachineReconciler (Client : Client) (Log : Logger) (Scheme : Scheme)
    (Recorder : Recorder)
| ServerBindingReconciler (Client : Client) (Log : Logger) (Scheme : Scheme)
    (Recorder : Recorder).

(** [controller.Options] *)
Record ControllerOptions := { MaxConcurrentReconciles : Z }.

(** The API types of [infrav1alpha3] that carry a webhook. *)
Inductive WebhookType :=
| MetalCluster | MetalMachine | MetalMachineTemplate | ServerBinding.

Inductive Goroutine := DebugServer.

(** ** Events *)

Inductive Event :=
| EvSetLogger (development : bool)
| EvGo (g : Goroutine)
| EvListenAndServe (addr : string) (res : option Error)
| EvNewBroadcaster (id : BroadcasterId) (opts : CorrelatorOptions)
| EvGetConfigOrDie (res : option RestConfig)
| EvNewManager (config : RestConfig) (opts : Options) (res : option Error)
| EvNewForConfig (config : RestConfig) (res : option Error)
| EvStartRecordingToSink (b : BroadcasterId) (sink : EventSinkImpl)
| EvNewRecorder (r : Recorder)
| EvSetupWithManager (r : Reconciler) (m : Manager) (opts : ControllerOptions)
    (res : option Error)
| EvSetupWebhookWithManager (t : WebhookType) (m : Manager) (res : option Error)
| EvSetupSignalHandler
| EvStart (m : Manager)
| EvStartReturned (res : option Error)
| EvLog (entry : LogEntry)
| EvExit (code : Z).

(** ** The flag package *)

(** A flag's value, decoded.  An [int] flag holds a value of Go's [int];
    [main] compares it with 0 and passes it on, and computes nothing with
    it, so the value is kept as an integer as it is. *)
Inductive FlagValue := VString (s : string) | VBool (b : bool) | VInt (z : Z).

(** A flag set holds, for each defined flag, its name and current value. *)
Definition FlagSet := list (string * FlagValue).

Definition CommandLine : FlagSet := [].

Definition StringVar (name value usage : string) (fs : FlagSet) : FlagSet :=
  fs ++ [(name, VString value)].
Definition BoolVar (name : string) (value : bool) (usage : string) (fs : FlagSet)
  : FlagSet := fs ++ [(name, VBool value)].
Definition IntVar (name : string) (value : Z) (usage : string) (fs : FlagSet)
  : FlagSet := fs ++ [(name, VInt value)].

Definition same_kind (a b : FlagValue) : bool :=
  match a, b with
  | VString _, VString _ | VBool _, VBool _ | VInt _, VInt _ => true
  | _, _ => false
  end.

(** Setting a flag: [None] when the flag is not defined or the value is not
    of the flag's type (text the flag's type cannot decode). *)
Fixpoint flag_Set (name : string) (v : FlagValue) (fs : FlagSet) : option FlagSet :=
  match fs with
  | [] => None
  | (n, old) :: rest =>
      if String.eqb n name
      then if same_kind old v then Some ((n, v) :: rest) else None
      else option_map (cons (n, old)) (flag_Set name v rest)
  end.

(** The arguments are taken after tokenisation, as flag settings in the
    order given; parsing stops at the first one that is rejected. *)
Fixpoint flag_parse (arguments : list (string * FlagValue)) (fs : FlagSet)
  : option FlagSet :=
  match arguments with
  | [] => Some fs
  | (name, v) :: rest =>
      match flag_Set name v fs with
      | Some fs' => flag_parse rest fs'
      | None => None
      end
  end.

Fixpoint flag_Lookup (name : string) (fs : FlagSet) : option FlagValue :=
  match fs with
  | [] => None
  | (n, v) :: rest => if String.eqb n name then Some v else flag_Lookup name rest
  end.

Definition stringOf (fs : FlagSet) (name : string) : string :=
  match flag_Lookup name fs with Some (VString s) => s | _ => "" end.
Definition boolOf (fs : FlagSet) (name : string) : bool :=
  match flag_Lookup name fs with Some (VBool b) => b | _ => false end.
Definition intOf (fs : FlagSet) (name : string) : Z :=
  match flag_Lookup name fs with Some (VInt z) => z | _ => 0%Z end.

(** ** The environment: what the calls into the libraries come back with *)

Record Env := {
  (** [os.Args[1:]] *)
  os_Args : list (string * FlagValue);
  (** what [debug.ListenAndServe] reports through its log function *)
  debug_messages : string -> list string;
  (** the error [debug.ListenAndServe] returns; [None]: it keeps serving *)
  debug_result : string -> option Error;
  (** [None]: [GetConfigOrDie] finds no configuration and ends the process *)
  kubeconfig : option RestConfig;
  manager_result : RestConfig -> Options -> option Error;
  clientset_result : RestConfig -> option Error;
  controller_result : Reconciler -> Manager -> ControllerOptions -> option Error;
  webhook_result : WebhookType -> Manager -> option Error;
  (** the error [mgr.Start] returns once it returns; [None]: a clean stop *)
  start_result : Manager -> option Error
}.

(** ** A thread: a computation that appends events to its own trace *)

Inductive Outcome (A : Type) :=
| Val (a : A)
| Exited      (* the thread has called [os.Exit] *)
| Blocked.    (* the thread is inside a call that never returns *)

Arguments Val {A} a.
Arguments Exited {A}.
Arguments Blocked {A}.

Definition M (A : Type) := list Event -> Outcome A * list Event.

Definition ret {A} (a : A) : M A := fun tr => (Val a, tr).

Definition bind {A B} (c : M A) (k : A -> M B) : M B :=
  fun tr =>
    match c tr with
    | (Val a, tr') => k a tr'
    | (Exited, tr') => (Exited, tr')
    | (Blocked, tr') => (Blocked, tr')
    end.

Notation "x <- c ;; k" := (bind c (fun x => k))
  (at level 61, c at next level, right associativity).
Notation "c ;; k" := (bind c (fun _ => k))
  (at level 61, right associativity).

Definition emit (e : Event) : M unit := fun tr => (Val tt, tr ++ [e]).

Definition os_Exit {A} (code : Z) : M A := fun tr => (Exited, tr ++ [EvExit code]).

Definition block {A} : M A := fun tr => (Blocked, tr).

(** Go's [if err != nil { ... }] around a call that returns an error. *)
Definition ifErr (c : M (option Error)) (handler : Error -> M unit) : M unit :=
  err <- c ;;
  match err with
  | Some e => handler e
  | None => ret tt
  end.

(** The same around a call that returns a value and an error. *)
Definition orElse {A} (c : M (A + Error)) (handler : Error -> M A) : M A :=
  r <- c ;;
  match r with
  | inl a => ret a
  | inr e => handler e
  end.

Fixpoint forEach {A} (l : list A) (f : A -> M unit) : M unit :=
  match l with
  | [] => ret tt
  | a :: rest => f a ;; forEach rest f
  end.

(** The events of a thread that runs alone from its start. *)
Definition trace_of {A} (c : M A) : list Event := snd (c []).

(** ** The library calls [main] makes *)

Section Calls.

Variable env : Env.

(** [flag.Parse]: the command-line flag set exits with status 2 when it
    rejects an argument ([flag.ExitOnError]).  A request for help, which
    the flag package answers with the usage and status 0, and the flags
    that imported packages define, are not among the arguments here: the
    command lines accepted are those that set the three flags of [main]. *)
Definition flag_Parse (fs : FlagSet) : M FlagSet :=
  match flag_parse (os_Args env) fs with
  | Some fs' => ret fs'
  | None => os_Exit 2
  end.

(** [ctrl.SetLogger(zap.New(opts))], by the [Development] option set. *)
Definition ctrl_SetLogger (development : bool) : M unit :=
  emit (EvSetLogger development).

Definition go (g : Goroutine) : M unit := emit (EvGo g).

Definition Logger_Info (l : Logger) (msg : string) : M unit :=
  emit (EvLog (LogInfo l msg)).

Definition Logger_Error (l : Logger) (err : Error) (msg : string)
    (keysAndValues : list string) : M unit :=
  emit (EvLog (LogError l err msg keysAndValues)).

(** [debug.ListenAndServe(ctx, addr, log)]: reports through [log], then
    either returns an error or serves for ever (the context is never
    cancelled). *)
Definition debug_ListenAndServe (addr : string) (log : string -> M unit)
  : M (option Error) :=
  forEach (debug_messages env addr) log ;;
  emit (EvListenAndServe addr (debug_result env addr)) ;;
  match debug_result env addr with
  | Some e => ret (Some e)
  | None => block
  end.

Definition count_broadcasters (tr : list Event) : nat :=
  List.length (filter (fun e => match e with EvNewBroadcaster _ _ => true | _ => false end) tr).

(** Each broadcaster made is a new object: it gets the next free identity. *)
Definition cgrecord_NewBroadcasterWithCorrelatorOptions (opts : CorrelatorOptions)
  : M BroadcasterId :=
  fun tr =>
    let id := count_broadcasters tr in
    (Val id, tr ++ [EvNewBroadcaster id opts]).

Definition cgrecord_NewBroadcaster : M BroadcasterId :=
  cgrecord_NewBroadcasterWithCorrelatorOptions defaultCorrelatorOptions.

(** [ctrl.GetConfigOrDie]: without a configuration it exits with status 1. *)
Definition ctrl_GetConfigOrDie : M RestConfig :=
  emit (EvGetConfigOrDie (kubeconfig env)) ;;
  match kubeconfig env with
  | Some c => ret c
  | None => os_Exit 1
  end.

Definition ctrl_NewManager (config : RestConfig) (opts : Options)
  : M (Manager + Error) :=
  emit (EvNewManager config opts (manager_result env config opts)) ;;
  match manager_result env config opts with
  | None => ret (inl {| mgr_config := config; mgr_options := opts |})
  | Some e => ret (inr e)
  end.

Definition kubernetes_NewForConfig (config : RestConfig) : M (Clientset + Error) :=
  emit (EvNewForConfig config (clientset_result env config)) ;;
  match clientset_result env config with
  | None => ret (inl {| cs_config := config |})
  | Some e => ret (inr e)
  end.

Definition StartRecordingToSink (b : BroadcasterId) (sink : EventSinkImpl) : M unit :=
  emit (EvStartRecordingToSink b sink).

Definition NewRecorder (b : BroadcasterId) (s : Scheme) (source : EventSource)
  : M Recorder :=
  let r := {| rec_broadcaster := b; rec_scheme := s; rec_source := source |} in
  emit (EvNewRecorder r) ;; ret r.

Definition SetupWithManager (r : Reconciler) (mgr : Manager) (opts : ControllerOptions)
  : M (option Error) :=
  emit (EvSetupWithManager r mgr opts (controller_result env r mgr opts)) ;;
  ret (controller_result env r mgr opts).

Definition SetupWebhookWithManager (t : WebhookType) (mgr : Manager)
  : M (option Error) :=
  emit (EvSetupWebhookWithManager t mgr (webhook_result env t mgr)) ;;
  ret (webhook_result env t mgr).

(** [ctrl.SetupSignalHandler()], called for the channel given to
    [mgr.Start].  The library's handler also ends the process, with status
    1, when a second signal arrives; that exit is the library's own and is
    not among the events here. *)
Definition ctrl_SetupSignalHandler : M unit := emit EvSetupSignalHandler.

(** [mgr.Start(stop)]: the run loop is entered, and left when [Start]
    returns. *)
Definition Manager_Start (mgr : Manager) : M (option Error) :=
  emit (EvStart mgr) ;;
  emit (EvStartReturned (start_result env mgr)) ;;
  ret (start_result env mgr).

(** ** The program *)

Definition debugAddr : string := ":9994".

Definition setupLog : Logger := WithName ctrl_Log "setup".

(** [func init()] *)
Definition init (s : Scheme) : Scheme :=
  let s := AddToScheme clientgoscheme s in
  let s := AddToScheme capiv1 s in
  let s := AddToScheme infrav1alpha2 s in
  let s := AddToScheme infrav1alpha3 s in
  let s := AddToScheme metalv1alpha1 s in
  s.

Definition scheme : Scheme := init NewScheme.

(** The body of the goroutine started by [main]. *)
Definition debugServer : M unit :=
  let debugLogFunc := fun msg => Logger_Info setupLog msg in
  ifErr (debug_ListenAndServe debugAddr debugLogFunc) (fun err =>
    Logger_Error setupLog err "failed to start debug server" [] ;;
    os_Exit 1).

Definition goroutine_body (g : Goroutine) : M unit :=
  match g with DebugServer => debugServer end.

(** [if webhookPort == 0 { ... }]: the three reconcilers. *)
Definition setupReconcilers (mgr : Manager) (recorder : Recorder) : M unit :=
  ifErr (SetupWithManager
           (MetalClusterReconciler
              (GetClient mgr)
              (WithName (WithName ctrl_Log "controllers") "MetalCluster")
              (GetScheme mgr))
           mgr {| MaxConcurrentReconciles := 10 |}) (fun err =>
    Logger_Error setupLog err "unable to create controller" ["controller"; "MetalCluster"] ;;
    os_Exit 1) ;;
  ifErr (SetupWithManager
           (MetalMachineReconciler
              (GetClient mgr)
              (WithName (WithName ctrl_Log "controllers") "MetalMachine")
              (GetScheme mgr)
              recorder)
           mgr {| MaxConcurrentReconciles := 10 |}) (fun err =>
    Logger_Error setupLog err "unable to create controller" ["controller"; "MetalMachine"] ;;
    os_Exit 1) ;;
  ifErr (SetupWithManager
           (ServerBindingReconciler
              (GetClient mgr)
              (WithName (WithName ctrl_Log "controllers") "ServerBinding")
              (GetScheme mgr)
              recorder)
           mgr {| MaxConcurrentReconciles := 10 |}) (fun err =>
    Logger_Error setupLog err "unable to create controller" ["controller"; "ServerBinding"] ;;
    os_Exit 1).

(** [else { ... }]: the four webhooks. *)
Definition setupWebhooks (mgr : Manager) : M unit :=
  ifErr (SetupWebhookWithManager MetalCluster mgr) (fun err =>
    Logger_Error setupLog err "unable to create webhook" ["webhook"; "MetalCluster"] ;;
    os_Exit 1) ;;
  ifErr (SetupWebhookWithManager MetalMachine mgr) (fun err =>
    Logger_Error setupLog err "unable to create webhook" ["webhook"; "MetalMachine"] ;;
    os_Exit 1) ;;
  ifErr (SetupWebhookWithManager MetalMachineTemplate mgr) (fun err =>
    Logger_Error setupLog err "unable to create webhook" ["webhook"; "MetalMachineTemplate"] ;;
    os_Exit 1) ;;
  ifErr (SetupWebhookWithManager ServerBinding mgr) (fun err =>
    Logger_Error setupLog err "unable to create webhook" ["webhook"; "ServerBinding"] ;;
    os_Exit 1).

(** The flags [main] defines, with their defaults. *)
Definition defineFlags (fs : FlagSet) : FlagSet :=
  let fs := StringVar "metrics-addr" ":8080"
              "The address the metric endpoint binds to." fs in
  let fs := BoolVar "enable-leader-election" true
              "Enable leader election for controller manager. Enabling this will ensure there is only one active controller manager." fs in
  let fs := IntVar "webhook-port" 0
              "Webhook Server port, disabled by default. When enabled, the manager will only work as webhook server, no reconcilers are installed." fs in
  fs.

(** [func main()] *)
Definition main : M unit :=
  fs <- flag_Parse (defineFlags CommandLine) ;;
  let metricsAddr := stringOf fs "metrics-addr" in
  let enableLeaderElection := boolOf fs "enable-leader-election" in
  let webhookPort := intOf fs "webhook-port" in

  ctrl_SetLogger true ;;

  go DebugServer ;;

  broadcaster <- cgrecord_NewBroadcasterWithCorrelatorOptions {| BurstSize := 100 |} ;;

  config <- ctrl_GetConfigOrDie ;;
  mgr <- orElse (ctrl_NewManager config {|
                   opt_Scheme := scheme;
                   MetricsBindAddress := metricsAddr;
                   LeaderElection := enableLeaderElection;
                   LeaderElectionID := "controller-leader-election-capm";
                   Port := webhookPort;
                   EventBroadcaster := broadcaster |}) (fun err =>
           Logger_Error setupLog err "unable to start manager" [] ;;
           os_Exit 1) ;;

  clientset <- orElse (kubernetes_NewForConfig (GetConfig mgr)) (fun err =>
                 Logger_Error setupLog err "unable to create k8s client" [] ;;
                 os_Exit 1) ;;

  eventBroadcaster <- cgrecord_NewBroadcaster ;;
  StartRecordingToSink eventBroadcaster
    {| Interface := CoreV1_Events clientset "" |} ;;

  recorder <- NewRecorder eventBroadcaster (GetScheme mgr)
                {| Component := "caps-controller-manager" |} ;;

  (if (webhookPort =? 0)%Z
   then setupReconcilers mgr recorder
   else setupWebhooks mgr) ;;

  Logger_Info setupLog "starting manager" ;;

  ctrl_SetupSignalHandler ;;
  ifErr (Manager_Start mgr) (fun err =>
    Logger_Error setupLog err "problem running manager" [] ;;
    os_Exit 1).

(** The Go runtime ends the process with status 0 when [main] returns. *)
Definition runtime_main : M unit := main ;; os_Exit 0.

Definition main_trace : list Event := trace_of runtime_main.

Definition debug_trace : list Event := trace_of (goroutine_body DebugServer).

End Calls.

(** ** The process: [main] and the goroutine it starts *)

Inductive Tid := MainT | SideT.

Definition History := list (Tid * Event).

Definition is_exit (e : Event) : bool :=
  match e with EvExit _ => true | _ => false end.

Definition is_go (e : Event) : bool :=
  match e with EvGo _ => true | _ => false end.

(** A schedule names, step by step, the thread that runs next.  A thread
    that cannot run (the goroutine before its [go] statement, a thread
    inside a call that has not returned) lets the step pass.  The first
    [os.Exit] ends the process. *)
Fixpoint interleave (sched : list Tid) (spawned : bool) (m s : list Event)
  : History :=
  match sched with
  | [] => []
  | MainT :: sched' =>
      match m with
      | [] => interleave sched' spawned m s
      | e :: m' =>
          (MainT, e) ::
          (if is_exit e then []
           else interleave sched' (spawned || is_go e) m' s)
      end
  | SideT :: sched' =>
      if spawned then
        match s with
        | [] => interleave sched' spawned m s
        | e :: s' =>
            (SideT, e) ::
            (if is_exit e then [] else interleave sched' spawned m s')
        end
      else interleave sched' spawned m s
  end.

Definition run (env : Env) (sched : list Tid) : History :=
  interleave sched false (main_trace env) (debug_trace env).

(** The number of steps a schedule gives to [main]. *)
Fixpoint main_steps (sched : list Tid) : nat :=
  match sched with
  | [] => 0
  | MainT :: sched' => S (main_steps sched')
  | SideT :: sched' => main_steps sched'
  end.

(** ** What can be seen of an execution *)

Definition is_main (te : Tid * Event) : bool :=
  match fst te with MainT => true | SideT => false end.

Definition is_side (te : Tid * Event) : bool :=
  match fst te with MainT => false | SideT => true end.

Definition main_events (h : History) : list Event := map snd (filter is_main h).

Definition side_events (h : History) : list Event := map snd (filter is_side h).

Definition events (h : History) : list Event := map snd h.

(** The values picked out of a trace, in order. *)
Fixpoint collect {X} (pick : Event -> option X) (tr : list Event) : list X :=
  match tr with
  | [] => []
  | e :: rest =>
      match pick e with
      | Some x => x :: collect pick rest
      | None => collect pick rest
      end
  end.

Definition exits : list Event -> list Z :=
  collect (fun e => match e with EvExit code => Some code | _ => None end).

(** The status the process has ended with, if it has ended. *)
Definition exit_status (tr : list Event) : option Z := hd_error (exits tr).

Definition log : list Event -> list LogEntry :=
  collect (fun e => match e with EvLog entry => Some entry | _ => None end).

(** The API type a reconciler looks after. *)
Definition kind_of (r : Reconciler) : WebhookType :=
  match r with
  | MetalClusterReconciler _ _ _ => MetalCluster
  | MetalMachineReconciler _ _ _ _ => MetalMachine
  | ServerBindingReconciler _ _ _ _ => ServerBinding
  end.

Definition client_of (r : Reconciler) : Client :=
  match r with
  | MetalClusterReconciler c _ _ => c
  | MetalMachineReconciler c _ _ _ => c
  | ServerBindingReconciler c _ _ _ => c
  end.

Definition scheme_of (r : Reconciler) : Scheme :=
  match r with
  | MetalClusterReconciler _ _ s => s
  | MetalMachineReconciler _ _ s _ => s
  | ServerBindingReconciler _ _ s _ => s
  end.

Definition recorder_of (r : Reconciler) : option Recorder :=
  match r with
  | MetalClusterReconciler _ _ _ => None
  | MetalMachineReconciler _ _ _ rec => Some rec
  | ServerBindingReconciler _ _ _ rec => Some rec
  end.

(** The reconcilers registered with a manager, with their options: the
    [SetupWithManager] calls that returned no error. *)
Definition reconcilers
  : list Event -> list (Reconciler * Manager * ControllerOptions) :=
  collect (fun e =>
    match e with
    | EvSetupWithManager r m opts None => Some (r, m, opts)
    | _ => None
    end).

(** The webhooks registered: the [SetupWebhookWithManager] calls that
    returned no error. *)
Definition webhooks : list Event -> list WebhookType :=
  collect (fun e =>
    match e with
    | EvSetupWebhookWithManager t _ None => Some t
    | _ => None
    end).

(** Every registration attempted, reconciler or webhook, in order, with the
    error it came back with. *)
Inductive Registration :=
| Controller (k : WebhookType)
| Webhook (k : WebhookType).

Definition attempts : list Event -> list (Registration * option Error) :=
  collect (fun e =>
    match e with
    | EvSetupWithManager r _ _ res => Some (Controller (kind_of r), res)
    | EvSetupWebhookWithManager t _ res => Some (Webhook t, res)
    | _ => None
    end).

(** The run loop is entered when [mgr.Start] is called. *)
Definition starts : list Event -> list Manager :=
  collect (fun e => match e with EvStart m => Some m | _ => None end).

Definition entered_run_loop (tr : list Event) : bool :=
  match starts tr with [] => false | _ :: _ => true end.

(** The calls of the manager constructor. *)
Definition manager_calls
  : list Event -> list (RestConfig * Options * option Error) :=
  collect (fun e =>
    match e with
    | EvNewManager c o res => Some (c, o, res)
    | _ => None
    end).

(** The broadcasters made, with the correlator options they were made with. *)
Definition broadcasters : list Event -> list (BroadcasterId * CorrelatorOptions) :=
  collect (fun e =>
    match e with
    | EvNewBroadcaster id o => Some (id, o)
    | _ => None
    end).

(** The broadcasters that forward to a sink. *)
Definition sinks : list Event -> list (BroadcasterId * EventSinkImpl) :=
  collect (fun e =>
    match e with
    | EvStartRecordingToSink b s => Some (b, s)
    | _ => None
    end).

Definition recorders : list Event -> list Recorder :=
  collect (fun e => match e with EvNewRecorder r => Some r | _ => None end).

(** ** The paths through [main] *)

(** The flag set after [flag.Parse], when the command line is accepted. *)
Definition parsed_flags (env : Env) : option FlagSet :=
  flag_parse (os_Args env) (defineFlags CommandLine).

(** The options [main] builds for the manager constructor from the flags. *)
Definition options_of (fs : FlagSet) : Options := {|
  opt_Scheme := scheme;
  MetricsBindAddress := stringOf fs "metrics-addr";
  LeaderElection := boolOf fs "enable-leader-election";
  LeaderElectionID := "controller-leader-election-capm";
  Port := intOf fs "webhook-port";
  EventBroadcaster := 0 |}.

Definition manager_of (fs : FlagSet) (c : RestConfig) : Manager :=
  {| mgr_config := c; mgr_options := options_of fs |}.

Definition the_recorder : Recorder := {|
  rec_broadcaster := 1;
  rec_scheme := scheme;
  rec_source := {| Component := "caps-controller-manager" |} |}.

Definition the_sink (c : RestConfig) : EventSinkImpl :=
  {| Interface := CoreV1_Events {| cs_config := c |} "" |}.

Definition controllersLog (name : string) : Logger :=
  WithName (WithName ctrl_Log "controllers") name.

Definition clusterReconciler (m : Manager) : Reconciler :=
  MetalClusterReconciler (GetClient m) (controllersLog "MetalCluster") (GetScheme m).
Definition machineReconciler (m : Manager) : Reconciler :=
  MetalMachineReconciler (GetClient m) (controllersLog "MetalMachine") (GetScheme m)
    the_recorder.
Definition bindingReconciler (m : Manager) : Reconciler :=
  ServerBindingReconciler (GetClient m) (controllersLog "ServerBinding") (GetScheme m)
    the_recorder.

Definition ten : ControllerOptions := {| MaxConcurrentReconciles := 10 |}.

(** The events up to the manager constructor. *)
Definition before_manager (config : option RestConfig) : list Event :=
  [ EvSetLogger true; EvGo DebugServer;
    EvNewBroadcaster 0 {| BurstSize := 100 |};
    EvGetConfigOrDie config ].

(** The events from there to the mode switch, when nothing fails. *)
Definition before_mode (fs : FlagSet) (c : RestConfig) : list Event :=
  [ EvNewManager c (options_of fs) None;
    EvNewForConfig c None;
    EvNewBroadcaster 1 defaultCorrelatorOptions;
    EvStartRecordingToSink 1 (the_sink c);
    EvNewRecorder the_recorder ].

Definition fatal (err : Error) (msg : string) (keysAndValues : list string)
  : list Event :=
  [ EvLog (LogError setupLog err msg keysAndValues); EvExit 1 ].

(** The events of the run loop and after it. *)
Definition run_loop (m : Manager) (res : option Error) : list Event :=
  [ EvLog (LogInfo setupLog "starting manager"); EvSetupSignalHandler;
    EvStart m; EvStartReturned res ] ++
  match res with
  | Some err => fatal err "problem running manager" []
  | None => [ EvExit 0 ]
  end.

(** The name of an API type, as the log lines spell it. *)
Definition kind_name (k : WebhookType) : string :=
  match k with
  | MetalCluster => "MetalCluster"
  | MetalMachine => "MetalMachine"
  | MetalMachineTemplate => "MetalMachineTemplate"
  | ServerBinding => "ServerBinding"
  end.

Definition controller_ok (m : Manager) (r : Reconciler) : Event :=
  EvSetupWithManager r m ten None.

Definition controller_failed (m : Manager) (r : Reconciler) (err : Error) : list Event :=
  EvSetupWithManager r m ten (Some err) ::
  fatal err "unable to create controller" [ "controller"; kind_name (kind_of r) ].

Definition webhook_ok (m : Manager) (t : WebhookType) : Event :=
  EvSetupWebhookWithManager t m None.

Definition webhook_failed (m : Manager) (t : WebhookType) (err : Error) : list Event :=
  EvSetupWebhookWithManager t m (Some err) ::
  fatal err "unable to create webhook" [ "webhook"; kind_name t ].

(** One case for each way through [main]: what the calls came back with,
    and the events [main] produces. *)
Inductive MainPath (env : Env) : list Event -> Prop :=
| PathUsage :
    parsed_flags env = None ->
    MainPath env [ EvExit 2 ]
| PathNoConfig fs :
    parsed_flags env = Some fs ->
    kubeconfig env = None ->
    MainPath env (before_manager None ++ [ EvExit 1 ])
| PathManager fs c err :
    parsed_flags env = Some fs ->
    kubeconfig env = Some c ->
    manager_result env c (options_of fs) = Some err ->
    MainPath env
      (before_manager (Some c) ++
       EvNewManager c (options_of fs) (Some err) ::
       fatal err "unable to start manager" [])
| PathClientset fs c err :
    parsed_flags env = Some fs ->
    kubeconfig env = Some c ->
    manager_result env c (options_of fs) = None ->
    clientset_result env c = Some err ->
    MainPath env
      (before_manager (Some c) ++
       [ EvNewManager c (options_of fs) None; EvNewForConfig c (Some err) ] ++
       fatal err "unable to create k8s client" [])
| PathCluster fs c err :
    let m := manager_of fs c in
    parsed_flags env = Some fs ->
    kubeconfig env = Some c ->
    manager_result env c (options_of fs) = None ->
    clientset_result env c = None ->
    intOf fs "webhook-port" = 0%Z ->
    controller_result env (clusterReconciler m) m ten = Some err ->
    MainPath env
      (before_manager (Some c) ++ before_mode fs c ++
       controller_failed m (clusterReconciler m) err)
| PathMachine fs c err :
    let m := manager_of fs c in
    parsed_flags env = Some fs ->
    kubeconfig env = Some c ->
    manager_result env c (options_of fs) = None ->
    clientset_result env c = None ->
    intOf fs "webhook-port" = 0%Z ->
    controller_result env (clusterReconciler m) m ten = None ->
    controller_result env (machineReconciler m) m ten = Some err ->
    MainPath env
      (before_manager (Some c) ++ before_mode fs c ++
       [ controller_ok m (clusterReconciler m) ] ++
       controller_failed m (machineReconciler m) err)
| PathBinding fs c err :
    let m := manager_of fs c in
    parsed_flags env = Some fs ->
    kubeconfig env = Some c ->
    manager_result env c (options_of fs) = None ->
    clientset_result env c = None ->
    intOf fs "webhook-port" = 0%Z ->
    controller_result env (clusterReconciler m) m ten = None ->
    controller_result env (machineReconciler m) m ten = None ->
    controller_result env (bindingReconciler m) m ten = Some err ->
    MainPath env
      (before_manager (Some c) ++ before_mode fs c ++
       [ controller_ok m (clusterReconciler m);
         controller_ok m (machineReconciler m) ] ++
       controller_failed m (bindingReconciler m) err)
| PathReconcile fs c res :
    let m := manager_of fs c in
    parsed_flags env = Some fs ->
    kubeconfig env = Some c ->
    manager_result env c (options_of fs) = None ->
    clientset_result env c = None ->
    intOf fs "webhook-port" = 0%Z ->
    controller_result env (clusterReconciler m) m ten = None ->
    controller_result env (machineReconciler m) m ten = None ->
    controller_result env (bindingReconciler m) m ten = None ->
    start_result env m = res ->
    MainPath env
      (before_manager (Some c) ++ before_mode fs c ++
       [ controller_ok m (clusterReconciler m);
         controller_ok m (machineReconciler m);
         controller_ok m (bindingReconciler m) ] ++
       run_loop m res)
| PathWebhookCluster fs c err :
    let m := manager_of fs c in
    parsed_flags env = Some fs ->
    kubeconfig env = Some c ->
    manager_result env c (options_of fs) = None ->
    clientset_result env c = None ->
    intOf fs "webhook-port" <> 0%Z ->
    webhook_result env MetalCluster m = Some err ->
    MainPath env
      (before_manager (Some c) ++ before_mode fs c ++
       webhook_failed m MetalCluster err)
| PathWebhookMachine fs c err :
    let m := manager_of fs c in
    parsed_flags env = Some fs ->
    kubeconfig env = Some c ->
    manager_result env c (options_of fs) = None ->
    clientset_result env c = None ->
    intOf fs "webhook-port" <> 0%Z ->
    webhook_result env MetalCluster m = None ->
    webhook_result env MetalMachine m = Some err ->
    MainPath env
      (before_manager (Some c) ++ before_mode fs c ++
       [ webhook_ok m MetalCluster ] ++
       webhook_failed m MetalMachine err)
| PathWebhookTemplate fs c err :
    let m := manager_of fs c in
    parsed_flags env = Some fs ->
    kubeconfig env = Some c ->
    manager_result env c (options_of fs) = None ->
    clientset_result env c = None ->
    intOf fs "webhook-port" <> 0%Z ->
    webhook_result env MetalCluster m = None ->
    webhook_result env MetalMachine m = None ->
    webhook_result env MetalMachineTemplate m = Some err ->
    MainPath env
      (before_manager (Some c) ++ before_mode fs c ++
       [ webhook_ok m MetalCluster; webhook_ok m MetalMachine ] ++
       webhook_failed m MetalMachineTemplate err)
| PathWebhookBinding fs c err :
    let m := manager_of fs c in
    parsed_flags env = Some fs ->
    kubeconfig env = Some c ->
    manager_result env c (options_of fs) = None ->
    clientset_result env c = None ->
    intOf fs "webhook-port" <> 0%Z ->
    webhook_result env MetalCluster m = None ->
    webhook_result env MetalMachine m = None ->
    webhook_result env MetalMachineTemplate m = None ->
    webhook_result env ServerBinding m = Some err ->
    MainPath env
      (before_manager (Some c) ++ before_mode fs c ++
       [ webhook_ok m MetalCluster; webhook_ok m MetalMachine;
         webhook_ok m MetalMachineTemplate ] ++
       webhook_failed m ServerBinding err)
| PathAdmit fs c res :
    let m := manager_of fs c in
    parsed_flags env = Some fs ->
    kubeconfig env = Some c ->
    manager_result env c (options_of fs) = None ->
    clientset_result env c = None ->
    intOf fs "webhook-port" <> 0%Z ->
    webhook_result env MetalCluster m = None ->
    webhook_result env MetalMachine m = None ->
    webhook_result env MetalMachineTemplate m = None ->
    webhook_result env ServerBinding m = None ->
    start_result env m = res ->
    MainPath env
      (before_manager (Some c) ++ before_mode fs c ++
       [ webhook_ok m MetalCluster; webhook_ok m MetalMachine;
         webhook_ok m MetalMachineTemplate; webhook_ok m ServerBinding ] ++
       run_loop m res).

(** The events of the debug goroutine. *)
Definition debug_path (env : Env) : list Event :=
  map (fun msg => EvLog (LogInfo setupLog msg)) (debug_messages env debugAddr) ++
  EvListenAndServe debugAddr (debug_result env debugAddr) ::
  match debug_result env debugAddr with
  | Some err => fatal err "failed to start debug server" []
  | None => []
  end.

(** ** Executions *)

Definition prefix {A} (p l : list A) : Prop := exists rest, l = p ++ rest.

(** The schedule gives [main] as many steps as [main] has events. *)
Definition main_runs_to_end (env : Env) (sched : list Tid) : Prop :=
  List.length (main_trace env) <= main_steps sched.

(** The line [main] logs when a registration comes back with an error. *)
Definition registration_error (reg : Registration) (err : Error) : LogEntry :=
  match reg with
  | Controller k =>
      LogError setupLog err "unable to create controller" ["controller"; kind_name k]
  | Webhook k =>
      LogError setupLog err "unable to create webhook" ["webhook"; kind_name k]
  end.

(** Every call [main] makes into the libraries succeeds. *)
Definition all_calls_succeed (env : Env) : Prop :=
  parsed_flags env <> None /\
  kubeconfig env <> None /\
  (forall c o, manager_result env c o = None) /\
  (forall c, clientset_result env c = None) /\
  (forall r m o, controller_result env r m o = None) /\
  (forall t m, webhook_result env t m = None).

(** The debug server keeps serving. *)
Definition debug_serves (env : Env) : Prop := debug_result env debugAddr = None.

Definition registered_kind (x : Reconciler * Manager * ControllerOptions)
  : WebhookType := kind_of (fst (fst x)).

Definition registered_bound (x : Reconciler * Manager * ControllerOptions)
  : Z := MaxConcurrentReconciles (snd x).

(** The correlator options a broadcaster was made with. *)
Definition correlator_options (tr : list Event) (b : BroadcasterId)
  : option CorrelatorOptions :=
  option_map snd (find (fun x => Nat.eqb (fst x) b) (broadcasters tr)).

(** ** More of what can be seen *)

Definition logger_of (r : Reconciler) : Logger :=
  match r with
  | MetalClusterReconciler _ l _ => l
  | MetalMachineReconciler _ l _ _ => l
  | ServerBindingReconciler _ l _ _ => l
  end.

(** The calls of [debug.ListenAndServe], with what they came back with. *)
Definition listens : list Event -> list (string * option Error) :=
  collect (fun e =>
    match e with
    | EvListenAndServe addr res => Some (addr, res)
    | _ => None
    end).

(** The calls of [kubernetes.NewForConfig]. *)
Definition clientset_calls : list Event -> list (RestConfig * option Error) :=
  collect (fun e =>
    match e with
    | EvNewForConfig c res => Some (c, res)
    | _ => None
    end).

(** What [ctrl.GetConfigOrDie] found, each time it was called. *)
Definition config_lookups : list Event -> list (option RestConfig) :=
  collect (fun e => match e with EvGetConfigOrDie res => Some res | _ => None end).

(** What [mgr.Start] returned. *)
Definition start_returns : list Event -> list (option Error) :=
  collect (fun e => match e with EvStartReturned res => Some res | _ => None end).

Definition is_error_line (entry : LogEntry) : bool :=
  match entry with LogError _ _ _ _ => true | LogInfo _ _ => false end.

(** The last value the command line gives a flag, if it gives one. *)
Fixpoint last_setting (name : string) (arguments : list (string * FlagValue))
  : option FlagValue :=
  match arguments with
  | [] => None
  | (n, v) :: rest =>
      match last_setting name rest with
      | Some v' => Some v'
      | None => if String.eqb n name then Some v else None
      end
  end.

(** A flag that was defined stays defined, with a value of its type. *)
Definition same_flag (a b : option FlagValue) : Prop :=
  match a, b with
  | Some x, Some y => same_kind x y = true
  | None, None => True
  | _, _ => False
  end.

(** What a thread does after the first error line it logs. *)
Fixpoint after_error (tr : list Event) : list Event :=
  match tr with
  | [] => []
  | EvLog (LogError _ _ _ _) :: rest => rest
  | _ :: rest => after_error rest
  end.

(** The registrations of each mode, in the order of the source. *)
Definition reconciliation_mode : list Registration :=
  [ Controller MetalCluster; Controller MetalMachine; Controller ServerBinding ].

Definition webhook_mode : list Registration :=
  [ Webhook MetalCluster; Webhook MetalMachine; Webhook MetalMachineTemplate;
    Webhook ServerBinding ].

(** ** Environments and schedules to run the program on *)

(** No flags, and every call succeeds; the debug server keeps serving. *)
Definition healthy : Env := {|
  os_Args := [];
  debug_messages := fun _ => [];
  debug_result := fun _ => None;
  kubeconfig := Some {| Host := "https://10.96.0.1:443" |};
  manager_result := fun _ _ => None;
  clientset_result := fun _ => None;
  controller_result := fun _ _ _ => None;
  webhook_result := fun _ _ => None;
  start_result := fun _ => None |}.

Definition with_args (arguments : list (string * FlagValue)) (env : Env) : Env := {|
  os_Args := arguments;
  debug_messages := debug_messages env;
  debug_result := debug_result env;
  kubeconfig := kubeconfig env;
  manager_result := manager_result env;
  clientset_result := clientset_result env;
  controller_result := controller_result env;
  webhook_result := webhook_result env;
  start_result := start_result env |}.

(** [-webhook-port=9443] *)
Definition admission : Env := with_args [("webhook-port", VInt 9443)] healthy.

(** The cluster API cannot be reached when the manager is built. *)
Definition manager_down : Env := {|
  os_Args := [];
  debug_messages := fun _ => [];
  debug_result := fun _ => None;
  kubeconfig := kubeconfig healthy;
  manager_result := fun _ _ => Some "connection refused";
  clientset_result := fun _ => None;
  controller_result := fun _ _ _ => None;
  webhook_result := fun _ _ => None;
  start_result := fun _ => None |}.

(** The second reconciler cannot be registered. *)
Definition machine_fails : Env := {|
  os_Args := [];
  debug_messages := fun _ => [];
  debug_result := fun _ => None;
  kubeconfig := kubeconfig healthy;
  manager_result := fun _ _ => None;
  clientset_result := fun _ => None;
  controller_result := fun r _ _ =>
    match kind_of r with
    | MetalMachine => Some "no kind is registered"
    | _ => None
    end;
  webhook_result := fun _ _ => None;
  start_result := fun _ => None |}.

(** The debug address is taken by another process. *)
Definition debug_port_taken : Env := {|
  os_Args := [];
  debug_messages := fun _ => ["starting debug server"];
  debug_result := fun _ => Some "listen tcp :9994: bind: address already in use";
  kubeconfig := kubeconfig healthy;
  manager_result := fun _ _ => None;
  clientset_result := fun _ => None;
  controller_result := fun _ _ _ => None;
  webhook_result := fun _ _ => None;
  start_result := fun _ => None |}.

(** The schedule that runs [main] alone for [n] steps. *)
Definition main_alone (n : nat) : list Tid := repeat MainT n.

(** The clientset for the event sink cannot be made. *)
Definition clientset_down : Env := {|
  os_Args := [];
  debug_messages := fun _ => [];
  debug_result := fun _ => None;
  kubeconfig := kubeconfig healthy;
  manager_result := fun _ _ => None;
  clientset_result := fun _ => Some "no host";
  controller_result := fun _ _ _ => None;
  webhook_result := fun _ _ => None;
  start_result := fun _ => None |}.

(** The run loop comes back with an error. *)
Definition run_loop_breaks : Env := {|
  os_Args := [];
  debug_messages := fun _ => [];
  debug_result := fun _ => None;
  kubeconfig := kubeconfig healthy;
  manager_result := fun _ _ => None;
  clientset_result := fun _ => None;
  controller_result := fun _ _ _ => None;
  webhook_result := fun _ _ => None;
  start_result := fun _ => Some "leader election lost" |}.

(** No configuration of the cluster API is found. *)
Definition no_kubeconfig : Env := {|
  os_Args := [];
  debug_messages := fun _ => [];
  debug_result := fun _ => None;
  kubeconfig := None;
  manager_result := fun _ _ => None;
  clientset_result := fun _ => None;
  controller_result := fun _ _ _ => None;
  webhook_result := fun _ _ => None;
  start_result := fun _ => None |}.

(** The goroutine only logs, serves and exits. *)
Definition side_kind (e : Event) : Prop :=
  match e with
  | EvLog _ | EvListenAndServe _ _ | EvExit _ => True
  | _ => False
  end.

(** * Properties *)

(** ** Lists, prefixes and collected values *)

Section Collect.

Context {X : Type} (pick : Event -> option X).

Lemma collect_app (a b : list Event) :
  collect pick (a ++ b) = collect pick a ++ collect pick b.
Proof.
  induction a as [|e a IH]; simpl; [reflexivity|].
  destruct (pick e); simpl; now rewrite IH.
Qed.

Lemma collect_prefix (p l : list Event) :
  prefix p l -> prefix (collect pick p) (collect pick l).
Proof.
  intros [rest ->]. exists (collect pick rest). apply collect_app.
Qed.

Lemma in_collect (x : X) (tr : list Event) :
  In x (collect pick tr) <-> exists e, In e tr /\ pick e = Some x.
Proof.
  induction tr as [|e tr IH]; simpl.
  - split; [intros [] | intros (e & [] & _)].
  - destruct (pick e) as [y|] eqn:E; simpl; rewrite ?IH; split.
    + intros [->|(e' & He' & Hp)]; eauto.
    + intros (e' & [<-|He'] & Hp); [left; congruence | right; eauto].
    + intros (e' & He' & Hp); eauto.
    + intros (e' & [<-|He'] & Hp); [congruence | eauto].
Qed.

(** What one thread never produces is collected from the other alone. *)
Lemma collect_main_only (h : History) :
  Forall (fun e => pick e = None) (side_events h) ->
  collect pick (events h) = collect pick (main_events h).
Proof.
  unfold events, main_events, side_events.
  induction h as [|[[] e] h IH]; simpl; intros H; [reflexivity| |].
  - unfold is_main; simpl. destruct (pick e); rewrite IH; auto.
  - unfold is_main in *; simpl in *. inversion H as [|? ? He Hr]; subst.
    rewrite He. auto.
Qed.

Lemma in_collect_events (x : X) (h : History) :
  In x (collect pick (events h)) <->
  In x (collect pick (main_events h)) \/ In x (collect pick (side_events h)).
Proof.
  unfold events, main_events, side_events.
  induction h as [|[[] e] h IH]; simpl; [tauto| |];
    unfold is_main, is_side; simpl; destruct (pick e); simpl; rewrite IH; tauto.
Qed.

End Collect.

Lemma prefix_refl {A} (l : list A) : prefix l l.
Proof. exists []. now rewrite app_nil_r. Qed.

Lemma prefix_nil {A} (l : list A) : prefix [] l.
Proof. now exists l. Qed.

Lemma prefix_cons {A} (a : A) (p l : list A) : prefix p l -> prefix (a :: p) (a :: l).
Proof. intros [rest ->]. now exists rest. Qed.

Lemma prefix_in {A} (x : A) (p l : list A) : prefix p l -> In x p -> In x l.
Proof. intros [rest ->] H. apply in_or_app. now left. Qed.

Lemma prefix_of_nil {A} (p : list A) : prefix p [] -> p = [].
Proof. intros [rest H]. symmetry in H. now apply app_eq_nil in H. Qed.

(** A prefix that holds the last element holds them all, when that element
    occurs nowhere before. *)
Lemma prefix_with_last {A} (x : A) (p a : list A) :
  prefix p (a ++ [x]) -> In x p -> ~ In x a -> p = a ++ [x].
Proof.
  revert p. induction a as [|y a IH]; intros p [rest H] Hin Hnot; simpl in *.
  - destruct p as [|z p]; [destruct Hin|].
    simpl in H. injection H as <- H.
    symmetry in H. apply app_eq_nil in H as [-> _]. reflexivity.
  - destruct p as [|z p]; [destruct Hin|].
    simpl in H. injection H as <- H.
    destruct Hin as [<-|Hin]; [tauto|].
    f_equal. apply IH; [now exists rest | assumption | tauto].
Qed.

(** ** Interleavings *)

Lemma exits_cons (e : Event) (tr : list Event) :
  is_exit e = false -> exits (e :: tr) = exits tr.
Proof. destruct e; simpl; intros H; (reflexivity || discriminate). Qed.

Lemma is_exit_inv (e : Event) : is_exit e = true -> exists code, e = EvExit code.
Proof. destruct e; simpl; intros H; try discriminate. eauto. Qed.

Lemma exit_status_in (tr : list Event) (code : Z) :
  exit_status tr = Some code -> In code (exits tr).
Proof.
  unfold exit_status. destruct (exits tr); simpl; [discriminate|].
  intros [= ->]. now left.
Qed.

Lemma exit_status_none (tr : list Event) : exit_status tr = None <-> exits tr = [].
Proof.
  unfold exit_status. destruct (exits tr); simpl; split; congruence.
Qed.

(** Each thread's part of an execution is a prefix of that thread's events. *)
Lemma interleave_main_prefix (sched : list Tid) (spawned : bool) (m s : list Event) :
  prefix (main_events (interleave sched spawned m s)) m.
Proof.
  revert spawned m s.
  induction sched as [|[] sched IH]; intros spawned m s; simpl.
  - apply prefix_nil.
  - destruct m as [|e m]; [apply IH|].
    unfold main_events; simpl. apply prefix_cons.
    destruct (is_exit e); [apply prefix_nil | apply IH].
  - destruct spawned; [|apply IH].
    destruct s as [|e s]; [apply IH|].
    unfold main_events; simpl.
    destruct (is_exit e); [apply prefix_nil | apply IH].
Qed.

Lemma interleave_side_prefix (sched : list Tid) (spawned : bool) (m s : list Event) :
  prefix (side_events (interleave sched spawned m s)) s.
Proof.
  revert spawned m s.
  induction sched as [|[] sched IH]; intros spawned m s; simpl.
  - apply prefix_nil.
  - destruct m as [|e m]; [apply IH|].
    unfold side_events; simpl.
    destruct (is_exit e); [apply prefix_nil | apply IH].
  - destruct spawned; [|apply IH].
    destruct s as [|e s]; [apply IH|].
    unfold side_events; simpl. apply prefix_cons.
    destruct (is_exit e); [apply prefix_nil | apply IH].
Qed.

(** The goroutine does nothing before [main] has started it. *)
Lemma interleave_side_after_go (sched : list Tid) (m s : list Event) :
  let h := interleave sched false m s in
  side_events h <> [] -> In (EvGo DebugServer) (main_events h).
Proof.
  assert (G : forall sched spawned m s,
    side_events (interleave sched spawned m s) <> [] ->
    spawned = true \/ In (EvGo DebugServer) (main_events (interleave sched spawned m s))).
  { clear. induction sched as [|[] sched IH]; intros spawned m s; simpl.
    - intros H. now destruct H.
    - destruct m as [|e m]; [apply IH|].
      unfold side_events, main_events; simpl.
      destruct (is_exit e) eqn:E; simpl; [intros H; now destruct H|].
      intros H. apply IH in H. destruct H as [H|H]; [|now auto].
      destruct spawned; [now left|]. right. left.
      destruct e; simpl in H; try discriminate. now destruct g.
    - destruct spawned; [now left|]. apply IH. }
  intros h H. apply G in H. destruct H as [H|H]; [discriminate | exact H].
Qed.

(** A process whose [main] comes to an exit has ended once the schedule
    has given [main] all its steps. *)
Lemma interleave_ends (sched : list Tid) (spawned : bool) (m s : list Event) :
  exits m <> [] -> List.length m <= main_steps sched ->
  exit_status (events (interleave sched spawned m s)) <> None.
Proof.
  revert spawned m s.
  induction sched as [|[] sched IH]; intros spawned m s Hm Hlen; simpl in *.
  - destruct m; [now destruct Hm | simpl in Hlen; lia].
  - destruct m as [|e m]; [now destruct Hm|].
    simpl in Hlen. unfold events; simpl.
    destruct (is_exit e) eqn:E.
    + apply is_exit_inv in E as [code ->]. discriminate.
    + rewrite exit_status_none, exits_cons by assumption.
      rewrite <- exit_status_none. apply IH; [|lia].
      now rewrite exits_cons in Hm.
  - destruct spawned; [|now apply IH].
    destruct s as [|e s]; [now apply IH|].
    unfold events; simpl.
    destruct (is_exit e) eqn:E.
    + apply is_exit_inv in E as [code ->]. discriminate.
    + rewrite exit_status_none, exits_cons by assumption.
      rewrite <- exit_status_none. now apply IH.
Qed.

(** From any point where the process is alive and the goroutine started,
    letting the goroutine run brings it to its exit, when it has one. *)
Lemma interleave_side_to_exit (pre : list Tid) (n : nat) :
  forall (spawned : bool) (m s : list Event),
  exit_status (events (interleave pre spawned m s)) = None ->
  spawned = true \/ In (EvGo DebugServer) (main_events (interleave pre spawned m s)) ->
  exits s <> [] -> List.length s <= n ->
  let h := interleave (pre ++ repeat SideT n) spawned m s in
  exits (main_events h) = [] /\ exits (side_events h) <> [].
Proof.
  induction pre as [|[] pre IH]; intros spawned m s Halive Hgo Hs Hn; simpl in *.
  - destruct Hgo as [->|[]]. clear Halive.
    revert s Hs Hn. induction n as [|n IHn]; intros s Hs Hn; simpl.
    + destruct s; [now destruct Hs | simpl in Hn; lia].
    + destruct s as [|e s]; [now destruct Hs|].
      simpl in Hn. unfold main_events, side_events; simpl.
      destruct (is_exit e) eqn:E; simpl.
      * apply is_exit_inv in E as [code ->]. split; [reflexivity | discriminate].
      * rewrite exits_cons in Hs |- * by assumption.
        apply IHn; [assumption | lia].
  - destruct m as [|e m]; [now apply IH|].
    unfold events, main_events, side_events in *; simpl in *.
    destruct (is_exit e) eqn:E.
    + apply is_exit_inv in E as [code ->]. discriminate.
    + rewrite exit_status_none, exits_cons in Halive by assumption.
      rewrite exits_cons by assumption.
      apply IH; [now apply exit_status_none | | assumption | assumption].
      destruct Hgo as [->|[->|Hgo]];
        [now left | left; simpl; apply orb_true_r | now right].
  - destruct spawned.
    + destruct s as [|e s]; [now destruct Hs|].
      unfold events, main_events, side_events in *; simpl in *.
      destruct (is_exit e) eqn:E.
      * apply is_exit_inv in E as [code ->]. discriminate.
      * rewrite exit_status_none, exits_cons in Halive by assumption.
        rewrite exits_cons in Hs |- * by assumption.
        apply IH; [now apply exit_status_none | now left | assumption | lia].
    + now apply IH.
Qed.

(** ** The two threads *)

Ltac run_thread :=
  cbv [ret bind emit os_Exit block ctrl_SetLogger go
       cgrecord_NewBroadcasterWithCorrelatorOptions cgrecord_NewBroadcaster
       ctrl_GetConfigOrDie app count_broadcasters filter List.length orElse ifErr
       ctrl_NewManager kubernetes_NewForConfig StartRecordingToSink NewRecorder
       SetupWithManager SetupWebhookWithManager ctrl_SetupSignalHandler
       Manager_Start Logger_Info Logger_Error setupReconcilers setupWebhooks
       snd fst GetConfig GetScheme mgr_config mgr_options opt_Scheme].

(** [main] takes one of the paths of [MainPath]. *)
Lemma main_paths (env : Env) : MainPath env (main_trace env).
Proof.
  unfold main_trace, trace_of, runtime_main, main, flag_Parse.
  unfold bind at 1 2.
  fold (parsed_flags env).
  destruct (parsed_flags env) as [fs|] eqn:Hfs;
    [|simpl; now apply PathUsage].
  run_thread.
  destruct (kubeconfig env) as [c|] eqn:Hc;
    [|eapply PathNoConfig; eauto].
  destruct (manager_result env c _) as [err|] eqn:Hm;
    [eapply PathManager; eauto|].
  destruct (clientset_result env c) as [err|] eqn:Hcs;
    [eapply PathClientset; eauto|].
  destruct (intOf fs "webhook-port" =? 0)%Z eqn:Hp.
  - apply Z.eqb_eq in Hp.
    destruct (controller_result env (MetalClusterReconciler _ _ _) _ _)
      as [err|] eqn:H1; [eapply PathCluster; eauto|].
    destruct (controller_result env (MetalMachineReconciler _ _ _ _) _ _)
      as [err|] eqn:H2; [eapply PathMachine; eauto|].
    destruct (controller_result env (ServerBindingReconciler _ _ _ _) _ _)
      as [err|] eqn:H3; [eapply PathBinding; eauto|].
    destruct (start_result env _) as [err|] eqn:H5;
      eapply PathReconcile; eauto.
  - apply Z.eqb_neq in Hp.
    destruct (webhook_result env MetalCluster _)
      as [err|] eqn:H1; [eapply PathWebhookCluster; eauto|].
    destruct (webhook_result env MetalMachine _)
      as [err|] eqn:H2; [eapply PathWebhookMachine; eauto|].
    destruct (webhook_result env MetalMachineTemplate _)
      as [err|] eqn:H3; [eapply PathWebhookTemplate; eauto|].
    destruct (webhook_result env ServerBinding _)
      as [err|] eqn:H4; [eapply PathWebhookBinding; eauto|].
    destruct (start_result env _) as [err|] eqn:H5;
      eapply PathAdmit; eauto.
Qed.

Lemma forEach_log (msgs : list string) (tr : list Event) :
  forEach msgs (fun msg => Logger_Info setupLog msg) tr =
  (Val tt, tr ++ map (fun msg => EvLog (LogInfo setupLog msg)) msgs).
Proof.
  revert tr. induction msgs as [|msg msgs IH]; intros tr; simpl.
  - unfold ret. now rewrite app_nil_r.
  - unfold bind, Logger_Info, emit at 1. rewrite IH. f_equal. now rewrite <- app_assoc.
Qed.

(** The goroutine logs what the debug server reports, and ends the process
    when the server comes back with an error. *)
Lemma debug_trace_path (env : Env) : debug_trace env = debug_path env.
Proof.
  unfold debug_trace, trace_of, goroutine_body, debugServer, debug_path,
    ifErr, debug_ListenAndServe.
  unfold bind at 1 2 3. rewrite forEach_log. simpl.
  unfold bind, emit. simpl.
  destruct (debug_result env debugAddr); simpl; unfold fatal;
    now rewrite <- ?app_assoc.
Qed.

Lemma debug_path_kind (env : Env) : Forall side_kind (debug_path env).
Proof.
  unfold debug_path. apply Forall_app. split.
  - apply Forall_forall. intros e He. apply in_map_iff in He as (msg & <- & _).
    exact I.
  - constructor; [exact I|].
    destruct (debug_result env debugAddr); repeat constructor.
Qed.

(** ** Executions of the process *)

Lemma run_main_prefix (env : Env) (sched : list Tid) :
  prefix (main_events (run env sched)) (main_trace env).
Proof. apply interleave_main_prefix. Qed.

Lemma run_side_prefix (env : Env) (sched : list Tid) :
  prefix (side_events (run env sched)) (debug_path env).
Proof. rewrite <- debug_trace_path. apply interleave_side_prefix. Qed.

Lemma run_side_kind (env : Env) (sched : list Tid) :
  Forall side_kind (side_events (run env sched)).
Proof.
  destruct (run_side_prefix env sched) as [rest H].
  pose proof (debug_path_kind env) as K. rewrite H in K.
  now apply Forall_app in K.
Qed.

(** What the goroutine never produces is found in [main]'s part alone. *)
Lemma run_collect {X} (pick : Event -> option X) (env : Env) (sched : list Tid) :
  (forall e, side_kind e -> pick e = None) ->
  collect pick (events (run env sched)) = collect pick (main_events (run env sched)).
Proof.
  intros H. apply collect_main_only.
  eapply Forall_impl; [exact H | apply run_side_kind].
Qed.

Lemma prefix_cons_inv {A} (x : A) (p l : list A) :
  prefix p (x :: l) -> p = [] \/ exists q, p = x :: q /\ prefix q l.
Proof.
  intros [rest H]. destruct p as [|y p]; [now left|].
  simpl in H. injection H as -> H. right. exists p. split; [reflexivity|].
  now exists rest.
Qed.

(** All the prefixes of a list that is written out. *)
Ltac prefix_cases H :=
  repeat (apply prefix_cons_inv in H;
          destruct H as [->|(?q & -> & H)]);
  try (apply prefix_of_nil in H; subst).

Ltac unfold_path :=
  repeat match goal with
         | res : option Error |- _ => destruct res
         end;
  cbn [app before_manager before_mode fatal run_loop controller_ok
       controller_failed webhook_ok webhook_failed] in *.

(** The paths of [main], with the part of it an execution has seen. *)
Ltac main_cases env sched :=
  let p := fresh "p" in
  let Hp := fresh "Hp" in
  let P := fresh "P" in
  pose proof (run_main_prefix env sched) as Hp;
  pose proof (main_paths env) as P;
  set (p := main_events (run env sched)) in *;
  clearbody p;
  destruct P.

(** [main] always comes to an exit. *)
Lemma main_trace_exits (env : Env) : exits (main_trace env) <> [].
Proof. destruct (main_paths env); unfold_path; discriminate. Qed.

(** Once the schedule has given [main] all its steps the process has ended. *)
Lemma run_ends (env : Env) (sched : list Tid) :
  main_runs_to_end env sched -> exit_status (events (run env sched)) <> None.
Proof. intros H. apply interleave_ends; [apply main_trace_exits | exact H]. Qed.

(** [main] exits at its very end only. *)
Lemma main_exit_complete (env : Env) (sched : list Tid) :
  exits (main_events (run env sched)) <> [] ->
  main_events (run env sched) = main_trace env.
Proof.
  main_cases env sched; unfold_path; prefix_cases Hp;
    intros Hex; solve [reflexivity | now destruct Hex].
Qed.

(** While the debug server serves, the goroutine never ends the process. *)
Lemma side_no_exit (env : Env) (sched : list Tid) :
  debug_serves env -> exits (side_events (run env sched)) = [].
Proof.
  intros H. pose proof (run_side_prefix env sched) as Hp.
  apply (collect_prefix (fun e => match e with EvExit code => Some code | _ => None end))
    in Hp.
  fold exits in Hp. apply prefix_of_nil.
  replace (exits (debug_path env)) with (@nil Z) in Hp; [exact Hp|].
  unfold debug_path, exits. rewrite collect_app, H. simpl. rewrite app_nil_r.
  induction (debug_messages env debugAddr); simpl; auto.
Qed.

(** With the debug server serving, a process that has ended was ended by
    [main], which has then run all its events. *)
Lemma run_main_complete (env : Env) (sched : list Tid) :
  debug_serves env -> main_runs_to_end env sched ->
  main_events (run env sched) = main_trace env.
Proof.
  intros Hd Hf. apply main_exit_complete.
  pose proof (run_ends Hf) as He. rewrite exit_status_none in He.
  destruct (exits (events (run env sched))) as [|code l] eqn:E; [now destruct He|].
  assert (Hin : In code (exits (events (run env sched)))) by (rewrite E; now left).
  apply in_collect_events in Hin. fold exits in Hin.
  rewrite (side_no_exit sched Hd) in Hin.
  destruct Hin as [Hin|[]]. intros Hnil. rewrite Hnil in Hin. destruct Hin.
Qed.

(** ** The mode switch *)

(** What the goroutine never produces is read from [main]'s part alone. *)
Ltac main_only :=
  unfold entered_run_loop, correlator_options, reconcilers, webhooks, attempts,
    starts, manager_calls, broadcasters, sinks, recorders in *;
  rewrite ?run_collect in * by (intros []; simpl; tauto).

Ltac same_flags :=
  match goal with
  | H : parsed_flags ?env = Some ?fs, H' : parsed_flags ?env = Some ?fs' |- _ =>
      rewrite H in H'; injection H' as <-
  | H : parsed_flags ?env = None, H' : parsed_flags ?env = Some _ |- _ =>
      rewrite H in H'; discriminate H'
  end.

Ltac port_known :=
  match goal with
  | H : intOf ?fs "webhook-port" = 0%Z |- _ => rewrite H
  | H : intOf ?fs "webhook-port" <> 0%Z |- _ =>
      apply Z.eqb_neq in H; rewrite H
  end.

(** C1: in no execution are reconcilers and webhooks both registered; once
    the run loop is entered, the registered reconcilers are exactly
    MetalCluster, MetalMachine and ServerBinding and no webhook is
    registered when webhook-port is 0, and the registered webhooks are
    exactly MetalCluster, MetalMachine, MetalMachineTemplate and
    ServerBinding and no reconciler is registered when it is not 0; and the
    run loop is entered whenever every call succeeds, the debug server
    serves and main is given all its steps. *)
Theorem mode_registration (env : Env) (sched : list Tid) :
  let tr := events (run env sched) in
  (reconcilers tr = [] \/ webhooks tr = []) /\
  (forall fs, parsed_flags env = Some fs -> entered_run_loop tr = true ->
     if (intOf fs "webhook-port" =? 0)%Z
     then map registered_kind (reconcilers tr)
            = [MetalCluster; MetalMachine; ServerBinding]
          /\ webhooks tr = []
     else webhooks tr
            = [MetalCluster; MetalMachine; MetalMachineTemplate; ServerBinding]
          /\ reconcilers tr = []) /\
  (all_calls_succeed env -> debug_serves env -> main_runs_to_end env sched ->
   entered_run_loop tr = true).
Proof.
  intros tr. subst tr. split; [|split].
  - main_only. main_cases env sched; unfold_path; prefix_cases Hp; simpl; auto.
  - intros fs' Hfs'. main_only.
    main_cases env sched; same_flags; unfold_path; prefix_cases Hp; simpl;
      try discriminate; intros _; port_known; simpl; auto.
  - intros (Hfs & Hc & Hm & Hcs & Hr & Hw) Hd Hf.
    main_only. rewrite (run_main_complete Hd Hf).
    destruct (main_paths env); try congruence; unfold_path; reflexivity.
Qed.

Lemma healthy_succeeds : all_calls_succeed healthy.
Proof. repeat split; try discriminate; reflexivity. Qed.

Lemma admission_succeeds : all_calls_succeed admission.
Proof. repeat split; try discriminate; reflexivity. Qed.

(** Both modes, run to the end with every call succeeding. *)
Lemma mode_registration_witness :
  (map registered_kind (reconcilers (events (run healthy (main_alone 17))))
     = [MetalCluster; MetalMachine; ServerBinding]
   /\ webhooks (events (run healthy (main_alone 17))) = []) /\
  (webhooks (events (run admission (main_alone 18)))
     = [MetalCluster; MetalMachine; MetalMachineTemplate; ServerBinding]
   /\ reconcilers (events (run admission (main_alone 18))) = []).
Proof.
  split.
  - apply (proj1 (proj2 (mode_registration healthy (main_alone 17)))
             (defineFlags CommandLine) eq_refl).
    apply (proj2 (proj2 (mode_registration healthy (main_alone 17)))).
    + exact healthy_succeeds.
    + reflexivity.
    + unfold main_runs_to_end. vm_compute. lia.
  - apply (proj1 (proj2 (mode_registration admission (main_alone 18)))
             [("metrics-addr", VString ":8080");
              ("enable-leader-election", VBool true);
              ("webhook-port", VInt 9443)] eq_refl).
    apply (proj2 (proj2 (mode_registration admission (main_alone 18)))).
    + exact admission_succeeds.
    + reflexivity.
    + unfold main_runs_to_end. vm_compute. lia.
Defined.

(** C2: every reconciler registered, in any execution, is registered with
    at most 10 concurrent reconciliations; in reconciliation mode, once the
    run loop is entered, the three reconcilers are there, each with the
    bound 10. *)
Theorem reconciler_concurrency (env : Env) (sched : list Tid) :
  let tr := events (run env sched) in
  (forall x, In x (reconcilers tr) -> registered_bound x = 10%Z) /\
  (forall fs, parsed_flags env = Some fs -> intOf fs "webhook-port" = 0%Z ->
     entered_run_loop tr = true ->
     map (fun x => (registered_kind x, registered_bound x)) (reconcilers tr)
       = [(MetalCluster, 10%Z); (MetalMachine, 10%Z); (ServerBinding, 10%Z)]).
Proof.
  intros tr. subst tr. split.
  - intros x. main_only.
    main_cases env sched; unfold_path; prefix_cases Hp; simpl;
      intuition (subst; reflexivity).
  - intros fs' Hfs' Hport. main_only.
    main_cases env sched; same_flags; try contradiction;
      unfold_path; prefix_cases Hp; simpl; (discriminate || reflexivity).
Qed.

Lemma reconciler_concurrency_witness :
  map (fun x => (registered_kind x, registered_bound x))
    (reconcilers (events (run healthy (main_alone 17))))
  = [(MetalCluster, 10%Z); (MetalMachine, 10%Z); (ServerBinding, 10%Z)].
Proof.
  apply (proj2 (reconciler_concurrency healthy (main_alone 17))
           (defineFlags CommandLine) eq_refl eq_refl).
  reflexivity.
Defined.

(** ** The manager constructor *)

(** The manager constructor is called with the options built from the
    flags, after the first broadcaster was made. *)
Lemma manager_call_inv (env : Env) (sched : list Tid)
    (c : RestConfig) (o : Options) (res : option Error) :
  let tr := events (run env sched) in
  In (c, o, res) (manager_calls tr) ->
  exists fs,
    parsed_flags env = Some fs /\ kubeconfig env = Some c /\
    o = options_of fs /\ res = manager_result env c o /\
    exists rest, broadcasters tr = (0, {| BurstSize := 100%Z |}) :: rest.
Proof.
  intros tr. subst tr. main_only.
  main_cases env sched; unfold_path; prefix_cases Hp; simpl;
    try tauto; intros [Hcall|[]]; inversion Hcall; subst;
    exists fs; repeat split; eauto; congruence.
Qed.

(** The broadcaster given to the manager constructor was made with the
    correlator burst size 100, whatever the flags and whatever the calls
    come back with. *)
Lemma manager_broadcaster_burst (env : Env) (sched : list Tid)
    (c : RestConfig) (o : Options) (res : option Error) :
  let tr := events (run env sched) in
  In (c, o, res) (manager_calls tr) ->
  option_map BurstSize (correlator_options tr (EventBroadcaster o)) = Some 100%Z.
Proof.
  intros tr H. subst tr.
  apply manager_call_inv in H as (fs & _ & _ & -> & _ & rest & Hb).
  unfold correlator_options. now rewrite Hb.
Qed.

(** C3: as the code is, the burst size 100 does not reach the broadcaster
    that records events.  In every execution the broadcaster given to the
    manager constructor was made with the correlator burst size 100, but
    the broadcaster that records to the sink, and the one that made the
    recorder a reconciler holds, was made with the default correlator
    options, its burst size left at Go's zero value. *)
Theorem recording_broadcaster_burst (env : Env) (sched : list Tid) :
  let tr := events (run env sched) in
  (forall c o res, In (c, o, res) (manager_calls tr) ->
     option_map BurstSize (correlator_options tr (EventBroadcaster o))
       = Some 100%Z) /\
  (forall b sink, In (b, sink) (sinks tr) ->
     option_map BurstSize (correlator_options tr b) = Some 0%Z) /\
  (forall r mgr o rec, In (r, mgr, o) (reconcilers tr) ->
     recorder_of r = Some rec ->
     option_map BurstSize (correlator_options tr (rec_broadcaster rec))
       = Some 0%Z).
Proof.
  intros tr. subst tr. split; [|split].
  - intros c o res. apply manager_broadcaster_burst.
  - intros b sink. main_only.
    main_cases env sched; unfold_path; prefix_cases Hp; simpl;
      try tauto; intros [Hcall|[]]; inversion Hcall; reflexivity.
  - intros r mgr o rec. main_only.
    main_cases env sched; unfold_path; prefix_cases Hp; simpl; try tauto;
      intros Hin;
      repeat (destruct Hin as [Hin|Hin]; [inversion Hin; subst; clear Hin|]);
      try contradiction; simpl; intros Hrec; try discriminate;
      inversion Hrec; subst; reflexivity.
Qed.

(** No flags and every call succeeding: the manager's broadcaster has the
    burst size 100, the recording one and the MetalMachine reconciler's
    recorder have the default. *)
Lemma recording_broadcaster_burst_witness :
  let tr := events (run healthy (main_alone 17)) in
  let c := {| Host := "https://10.96.0.1:443" |} in
  let m := manager_of (defineFlags CommandLine) c in
  (In (c, options_of (defineFlags CommandLine), None) (manager_calls tr) /\
   In (1, the_sink c) (sinks tr) /\
   In (machineReconciler m, m, ten) (reconcilers tr) /\
   recorder_of (machineReconciler m) = Some the_recorder) /\
  option_map BurstSize
    (correlator_options tr (EventBroadcaster (options_of (defineFlags CommandLine))))
    = Some 100%Z /\
  option_map BurstSize (correlator_options tr 1) = Some 0%Z /\
  option_map BurstSize (correlator_options tr (rec_broadcaster the_recorder))
    = Some 0%Z.
Proof.
  intros tr c m.
  assert (H : In (c, options_of (defineFlags CommandLine), None) (manager_calls tr) /\
              In (1, the_sink c) (sinks tr) /\
              In (machineReconciler m, m, ten) (reconcilers tr) /\
              recorder_of (machineReconciler m) = Some the_recorder).
  { repeat split.
    - vm_compute. left. reflexivity.
    - vm_compute. left. reflexivity.
    - vm_compute. right. left. reflexivity. }
  split; [exact H|].
  destruct H as (Hm & Hs & Hr & Hrec).
  destruct (recording_broadcaster_burst healthy (main_alone 17)) as (T1 & T2 & T3).
  split; [exact (T1 _ _ _ Hm)|].
  split; [exact (T2 _ _ Hs)|].
  exact (T3 _ _ _ _ Hr Hrec).
Defined.

(** C5: the lease name given to the manager constructor is the same
    string in any two executions, whatever their flags and environments. *)
Theorem lease_identity_fixed (env1 env2 : Env) (sched1 sched2 : list Tid)
    (c1 c2 : RestConfig) (o1 o2 : Options) (res1 res2 : option Error) :
  In (c1, o1, res1) (manager_calls (events (run env1 sched1))) ->
  In (c2, o2, res2) (manager_calls (events (run env2 sched2))) ->
  LeaderElectionID o1 = LeaderElectionID o2 /\
  LeaderElectionID o1 = "controller-leader-election-capm".
Proof.
  intros H1 H2.
  apply manager_call_inv in H1 as (fs1 & _ & _ & -> & _).
  apply manager_call_inv in H2 as (fs2 & _ & _ & -> & _).
  split; reflexivity.
Qed.

Lemma lease_identity_fixed_witness :
  LeaderElectionID (options_of (defineFlags CommandLine)) =
  LeaderElectionID (options_of [("metrics-addr", VString ":8080");
                                ("enable-leader-election", VBool true);
                                ("webhook-port", VInt 9443)]) /\
  LeaderElectionID (options_of (defineFlags CommandLine)) =
  "controller-leader-election-capm".
Proof.
  apply (lease_identity_fixed manager_down admission
           (main_alone 7) [MainT; MainT; SideT; MainT; MainT; MainT]
           {| Host := "https://10.96.0.1:443" |} {| Host := "https://10.96.0.1:443" |}
           (options_of (defineFlags CommandLine))
           (options_of [("metrics-addr", VString ":8080");
                        ("enable-leader-election", VBool true);
                        ("webhook-port", VInt 9443)])
           (Some "connection refused") None).
  - vm_compute. left. reflexivity.
  - vm_compute. left. reflexivity.
Defined.

(** ** Flags *)

(** C8: with no flags on the command line the flag set holds
    metrics-addr ":8080", enable-leader-election true and webhook-port 0;
    these are the values the manager is built with, no webhook is ever
    registered, and the reconcilers are what the run loop starts with. *)
Theorem flag_defaults (env : Env) (sched : list Tid) :
  os_Args env = [] ->
  let tr := events (run env sched) in
  exists fs,
    parsed_flags env = Some fs /\
    stringOf fs "metrics-addr" = ":8080" /\
    boolOf fs "enable-leader-election" = true /\
    intOf fs "webhook-port" = 0%Z /\
    webhooks tr = [] /\
    (entered_run_loop tr = true ->
     map registered_kind (reconcilers tr)
       = [MetalCluster; MetalMachine; ServerBinding]) /\
    (forall c o res, In (c, o, res) (manager_calls tr) ->
       MetricsBindAddress o = ":8080" /\ LeaderElection o = true /\ Port o = 0%Z).
Proof.
  intros Hargs tr. subst tr.
  assert (Hfs : parsed_flags env = Some (defineFlags CommandLine))
    by (unfold parsed_flags; now rewrite Hargs).
  exists (defineFlags CommandLine).
  repeat (split; [solve [assumption | reflexivity]|]).
  split; [|split].
  - main_only. main_cases env sched; same_flags; try (now destruct H3);
      unfold_path; prefix_cases Hp; reflexivity.
  - main_only. main_cases env sched; same_flags; try (now destruct H3);
      unfold_path; prefix_cases Hp; simpl; (discriminate || reflexivity).
  - intros c o res H.
    apply manager_call_inv in H as (fs & Hfs' & _ & -> & _).
    same_flags. repeat split.
Qed.

Lemma flag_defaults_witness :
  exists fs,
    parsed_flags healthy = Some fs /\
    stringOf fs "metrics-addr" = ":8080" /\
    boolOf fs "enable-leader-election" = true /\
    intOf fs "webhook-port" = 0%Z /\
    webhooks (events (run healthy (main_alone 17))) = [] /\
    (entered_run_loop (events (run healthy (main_alone 17))) = true ->
     map registered_kind (reconcilers (events (run healthy (main_alone 17))))
       = [MetalCluster; MetalMachine; ServerBinding]) /\
    (forall c o res,
       In (c, o, res) (manager_calls (events (run healthy (main_alone 17)))) ->
       MetricsBindAddress o = ":8080" /\ LeaderElection o = true /\ Port o = 0%Z).
Proof. exact (flag_defaults healthy (main_alone 17) eq_refl). Defined.

(** ** What the reconcilers are bound to *)

(** C4, as the code has it: every reconciler registered is registered with
    the manager that was built, and holds that manager's client and scheme;
    the MetalMachine and ServerBinding reconcilers also hold the recorder
    that was made, and the MetalCluster reconciler holds no recorder. *)
Theorem reconciler_bindings (env : Env) (sched : list Tid)
    (r : Reconciler) (mgr : Manager) (o : ControllerOptions) :
  let tr := events (run env sched) in
  In (r, mgr, o) (reconcilers tr) ->
  In (mgr_config mgr, mgr_options mgr, None) (manager_calls tr) /\
  client_of r = GetClient mgr /\
  scheme_of r = GetScheme mgr /\
  match kind_of r with
  | MetalCluster => recorder_of r = None
  | _ => exists rec, recorder_of r = Some rec /\ In rec (recorders tr) /\
                     rec_scheme rec = GetScheme mgr
  end.
Proof.
  intros tr. subst tr. main_only.
  main_cases env sched; unfold_path; prefix_cases Hp; simpl; try tauto;
    intros Hin;
    repeat (destruct Hin as [Hin|Hin]; [inversion Hin; subst; clear Hin|]);
    try contradiction; simpl;
    (repeat split; try (left; reflexivity);
     eexists; repeat split; left; reflexivity).
Qed.

Lemma reconciler_bindings_witness :
  In (bindingReconciler (manager_of (defineFlags CommandLine) {| Host := "https://10.96.0.1:443" |}),
      manager_of (defineFlags CommandLine) {| Host := "https://10.96.0.1:443" |},
      ten)
     (reconcilers (events (run healthy (main_alone 12)))) /\
  exists rec,
    recorder_of (bindingReconciler (manager_of (defineFlags CommandLine) {| Host := "https://10.96.0.1:443" |}))
      = Some rec /\
    In rec (recorders (events (run healthy (main_alone 12)))) /\
    rec_scheme rec = scheme.
Proof.
  split.
  - vm_compute. right. right. left. reflexivity.
  - apply (reconciler_bindings healthy (main_alone 12)
             (bindingReconciler (manager_of (defineFlags CommandLine) {| Host := "https://10.96.0.1:443" |}))
             (manager_of (defineFlags CommandLine) {| Host := "https://10.96.0.1:443" |})
             ten).
    vm_compute. right. right. left. reflexivity.
Defined.

(** C4 as stated fails: with every call succeeding, the MetalCluster
    reconciler is registered and holds no recorder. *)
Lemma cluster_reconciler_without_recorder :
  exists r mgr o,
    In (r, mgr, o) (reconcilers (events (run healthy (main_alone 17)))) /\
    kind_of r = MetalCluster /\
    recorder_of r = None.
Proof.
  exists (clusterReconciler (manager_of (defineFlags CommandLine) {| Host := "https://10.96.0.1:443" |})),
         (manager_of (defineFlags CommandLine) {| Host := "https://10.96.0.1:443" |}),
         ten.
  split; [vm_compute; left; reflexivity | split; reflexivity].
Qed.

(** ** The two broadcasters *)

(** C10: the manager constructor is given broadcaster 0, made with burst
    size 100; the sink and every recorder, so the recorder of the
    MetalMachine and ServerBinding reconcilers, named
    "caps-controller-manager", come from broadcaster 1, made with the
    default correlator options; no other broadcaster is made, and both
    have been made by the time the sink or a recorder exists. *)
Theorem two_broadcasters (env : Env) (sched : list Tid) :
  let tr := events (run env sched) in
  prefix (broadcasters tr)
    [(0, {| BurstSize := 100%Z |}); (1, defaultCorrelatorOptions)] /\
  (forall c o res, In (c, o, res) (manager_calls tr) ->
     EventBroadcaster o = 0 /\
     correlator_options tr 0 = Some {| BurstSize := 100%Z |}) /\
  (forall b sink, In (b, sink) (sinks tr) ->
     b = 1 /\ correlator_options tr 1 = Some defaultCorrelatorOptions) /\
  (forall rec, In rec (recorders tr) ->
     rec_broadcaster rec = 1 /\
     Component (rec_source rec) = "caps-controller-manager" /\
     correlator_options tr 1 = Some defaultCorrelatorOptions) /\
  (forall r mgr o rec, In (r, mgr, o) (reconcilers tr) ->
     recorder_of r = Some rec ->
     (kind_of r = MetalMachine \/ kind_of r = ServerBinding) /\
     In rec (recorders tr)) /\
  (entered_run_loop tr = true ->
   broadcasters tr = [(0, {| BurstSize := 100%Z |}); (1, defaultCorrelatorOptions)]).
Proof.
  intros tr. subst tr.
  split; [|split; [|split; [|split; [|split]]]].
  - main_only.
    main_cases env sched; unfold_path; prefix_cases Hp; simpl;
      solve [apply prefix_nil | apply prefix_refl
            | apply prefix_cons; apply prefix_nil].
  - intros c o res. main_only.
    main_cases env sched; unfold_path; prefix_cases Hp; simpl;
      try tauto; intros [Hcall|[]]; inversion Hcall; split; reflexivity.
  - intros b sink. main_only.
    main_cases env sched; unfold_path; prefix_cases Hp; simpl;
      try tauto; intros [Hcall|[]]; inversion Hcall; split; reflexivity.
  - intros rec. main_only.
    main_cases env sched; unfold_path; prefix_cases Hp; simpl;
      try tauto; intros [Hcall|[]]; subst; repeat split; reflexivity.
  - intros r mgr o rec. main_only.
    main_cases env sched; unfold_path; prefix_cases Hp; simpl; try tauto;
      intros Hin;
      repeat (destruct Hin as [Hin|Hin]; [inversion Hin; subst; clear Hin|]);
      try contradiction; simpl; intros Hrec; try discriminate;
      inversion Hrec; subst; (split; [auto | left; reflexivity]).
  - main_only.
    main_cases env sched; unfold_path; prefix_cases Hp; simpl;
      (discriminate || reflexivity).
Qed.

Lemma two_broadcasters_witness :
  broadcasters (events (run healthy [MainT; MainT; SideT; MainT; MainT; MainT; MainT; MainT; MainT]))
  = [(0, {| BurstSize := 100%Z |}); (1, defaultCorrelatorOptions)] /\
  1 = 1 /\
  correlator_options
    (events (run healthy [MainT; MainT; SideT; MainT; MainT; MainT; MainT; MainT; MainT])) 1
  = Some defaultCorrelatorOptions.
Proof.
  split; [reflexivity|].
  apply (proj1 (proj2 (proj2 (two_broadcasters healthy
           [MainT; MainT; SideT; MainT; MainT; MainT; MainT; MainT; MainT])))
           1 (the_sink {| Host := "https://10.96.0.1:443" |})).
  vm_compute. left. reflexivity.
Defined.

(** ** How the process ends *)

(** What an execution has collected, [main] collects when run to its end. *)
Lemma run_collect_in {X} (pick : Event -> option X) (env : Env) (sched : list Tid)
    (x : X) :
  (forall e, side_kind e -> pick e = None) ->
  In x (collect pick (events (run env sched))) -> In x (collect pick (main_trace env)).
Proof.
  intros Hpick Hin. rewrite run_collect in Hin by assumption.
  eapply prefix_in; [|exact Hin].
  apply collect_prefix, run_main_prefix.
Qed.

Lemma run_collect_prefix {X} (pick : Event -> option X) (env : Env) (sched : list Tid) :
  (forall e, side_kind e -> pick e = None) ->
  prefix (collect pick (events (run env sched))) (collect pick (main_trace env)).
Proof.
  intros Hpick. rewrite run_collect by assumption.
  apply collect_prefix, run_main_prefix.
Qed.

(** The goroutine exits with status 1 only. *)
Lemma side_exit_code (env : Env) (sched : list Tid) (code : Z) :
  In code (exits (side_events (run env sched))) -> code = 1%Z.
Proof.
  intros Hin.
  assert (H : In code (exits (debug_path env))).
  { eapply prefix_in; [|exact Hin]. apply collect_prefix, run_side_prefix. }
  unfold debug_path, exits in H. rewrite collect_app in H.
  apply in_app_or in H as [H|H].
  - exfalso. induction (debug_messages env debugAddr); simpl in H; auto.
  - simpl in H. destruct (debug_result env debugAddr); simpl in H; intuition.
Qed.

(** A process that has ended was ended by [main], at the end of its path,
    or by the goroutine, with status 1. *)
Lemma run_exit_cases (env : Env) (sched : list Tid) (code : Z) :
  exit_status (events (run env sched)) = Some code ->
  (main_events (run env sched) = main_trace env /\ In code (exits (main_trace env))) \/
  (code = 1%Z /\ exits (side_events (run env sched)) <> []).
Proof.
  intros H. apply exit_status_in, in_collect_events in H. fold exits in H.
  destruct H as [H|H].
  - left. assert (E : main_events (run env sched) = main_trace env).
    { apply main_exit_complete. intros Hnil. rewrite Hnil in H. destruct H. }
    split; [exact E | now rewrite <- E].
  - right. split; [now apply side_exit_code in H|].
    intros Hnil. rewrite Hnil in H. destruct H.
Qed.

(** A process that has not ended has not given [main] all its steps. *)
Lemma run_alive (env : Env) (sched : list Tid) :
  exit_status (events (run env sched)) = None -> ~ main_runs_to_end env sched.
Proof. intros H Hf. now apply run_ends in Hf. Qed.

(** Nothing is registered where no registration is attempted. *)
Lemma no_attempts (tr : list Event) :
  attempts tr = [] -> reconcilers tr = [] /\ webhooks tr = [].
Proof.
  unfold attempts, reconcilers, webhooks.
  induction tr as [|e tr IH]; simpl; [now split|].
  destruct e; simpl; auto; discriminate.
Qed.

(** The path of [main] on which the manager constructor fails. *)
Lemma manager_failure_trace (env : Env) (c : RestConfig) (o : Options) (err : Error) :
  In (c, o, Some err) (manager_calls (main_trace env)) ->
  attempts (main_trace env) = [] /\ starts (main_trace env) = [] /\
  exits (main_trace env) = [1%Z] /\
  In (LogError setupLog err "unable to start manager" []) (log (main_trace env)).
Proof.
  destruct (main_paths env); unfold_path; simpl; try tauto;
    intros [Hcall|[]]; inversion Hcall; subst; auto.
Qed.

(** C7: in an execution where the manager constructor has come back with
    an error, nothing is registered or even attempted and the run loop is
    not entered; the process has ended with status 1, by main after it has
    logged the error or by the debug goroutine's own failure, unless main
    has not been given all its steps yet; with the debug server serving
    and main given all its steps, the process has ended with status 1 and
    the error is in the log. *)
Theorem construction_failure_fatal (env : Env) (sched : list Tid)
    (c : RestConfig) (o : Options) (err : Error) :
  let h := run env sched in
  let tr := events h in
  In (c, o, Some err) (manager_calls tr) ->
  reconcilers tr = [] /\ webhooks tr = [] /\ attempts tr = [] /\
  entered_run_loop tr = false /\
  ((exit_status tr = Some 1%Z /\
    In (LogError setupLog err "unable to start manager" []) (log tr)) \/
   (exit_status tr = Some 1%Z /\ exits (side_events h) <> []) \/
   (exit_status tr = None /\ ~ main_runs_to_end env sched)) /\
  (debug_serves env -> main_runs_to_end env sched ->
   exit_status tr = Some 1%Z /\
   In (LogError setupLog err "unable to start manager" []) (log tr)).
Proof.
  intros h tr Hcall. subst tr h.
  assert (Hwhole : In (c, o, Some err) (manager_calls (main_trace env)))
    by (revert Hcall; apply run_collect_in; intros []; simpl; tauto).
  apply manager_failure_trace in Hwhole as (Ha & Hs & He & Hl).
  assert (Hatt : attempts (events (run env sched)) = []).
  { apply prefix_of_nil. rewrite <- Ha.
    apply run_collect_prefix. intros []; simpl; tauto. }
  assert (Hst : starts (events (run env sched)) = []).
  { apply prefix_of_nil. rewrite <- Hs.
    apply run_collect_prefix. intros []; simpl; tauto. }
  destruct (no_attempts _ Hatt) as [Hr Hw].
  assert (Hend :
    (exit_status (events (run env sched)) = Some 1%Z /\
     In (LogError setupLog err "unable to start manager" [])
        (log (events (run env sched)))) \/
    (exit_status (events (run env sched)) = Some 1%Z /\
     exits (side_events (run env sched)) <> []) \/
    (exit_status (events (run env sched)) = None /\ ~ main_runs_to_end env sched)).
  { destruct (exit_status (events (run env sched))) as [code|] eqn:E.
    - apply run_exit_cases in E as [[Hm Hin]|[-> Hside]].
      + left. rewrite He in Hin. destruct Hin as [<-|[]].
        split; [reflexivity|].
        apply in_collect_events. left. fold log. now rewrite Hm.
      + right. left. now split.
    - right. right. split; [reflexivity | now apply run_alive]. }
  split; [exact Hr|]. split; [exact Hw|]. split; [exact Hatt|].
  split; [unfold entered_run_loop; now rewrite Hst|].
  split; [exact Hend|].
  intros Hd Hf. destruct Hend as [Hend|[[_ Hside]|[_ Hnot]]].
  - exact Hend.
  - now rewrite (side_no_exit sched Hd) in Hside.
  - contradiction.
Qed.

Lemma construction_failure_fatal_witness :
  In ({| Host := "https://10.96.0.1:443" |}, options_of (defineFlags CommandLine),
      Some "connection refused")
     (manager_calls (events (run manager_down (main_alone 7)))) /\
  reconcilers (events (run manager_down (main_alone 7))) = [] /\
  webhooks (events (run manager_down (main_alone 7))) = [] /\
  attempts (events (run manager_down (main_alone 7))) = [] /\
  entered_run_loop (events (run manager_down (main_alone 7))) = false /\
  ((exit_status (events (run manager_down (main_alone 7))) = Some 1%Z /\
    In (LogError setupLog "connection refused" "unable to start manager" [])
       (log (events (run manager_down (main_alone 7))))) \/
   (exit_status (events (run manager_down (main_alone 7))) = Some 1%Z /\
    exits (side_events (run manager_down (main_alone 7))) <> []) \/
   (exit_status (events (run manager_down (main_alone 7))) = None /\
    ~ main_runs_to_end manager_down (main_alone 7))) /\
  (debug_serves manager_down -> main_runs_to_end manager_down (main_alone 7) ->
   exit_status (events (run manager_down (main_alone 7))) = Some 1%Z /\
   In (LogError setupLog "connection refused" "unable to start manager" [])
      (log (events (run manager_down (main_alone 7))))).
Proof.
  split.
  - vm_compute. left. reflexivity.
  - apply (construction_failure_fatal manager_down (main_alone 7)
             {| Host := "https://10.96.0.1:443" |} (options_of (defineFlags CommandLine))
             "connection refused").
    vm_compute. left. reflexivity.
Defined.

(** The paths of [main] on which a registration fails: the failed attempt
    is the last one, the error is logged under the name of what was being
    registered, the exit status is 1 and [mgr.Start] is never called. *)
Lemma registration_failure_trace (env : Env) (reg : Registration) (err : Error) :
  In (reg, Some err) (attempts (main_trace env)) ->
  starts (main_trace env) = [] /\
  exits (main_trace env) = [1%Z] /\
  In (registration_error reg err) (log (main_trace env)) /\
  exists before,
    attempts (main_trace env) = before ++ [(reg, Some err)] /\
    Forall (fun a => snd a = None) before.
Proof.
  destruct (main_paths env); unfold_path; simpl; try tauto; intros Hin;
    repeat (destruct Hin as [Hin|Hin]; [inversion Hin; subst; clear Hin|]);
    try contradiction;
    (split; [reflexivity|]; split; [reflexivity|]; split; [simpl; auto|]);
    match goal with
    | |- exists before, ?l = before ++ _ /\ _ =>
        exists (removelast l); split; [reflexivity | repeat constructor]
    end.
Qed.

(** C6: in an execution where a registration, of a reconciler or of a
    webhook, has come back with an error, the run loop is not entered and
    the failed attempt is the last registration attempted, every one before
    it having succeeded; the process has ended with status 1, by main after
    it has logged the error under the name of the controller or webhook, or
    by the debug goroutine's own failure, unless main has not been given
    all its steps yet; with the debug server serving and main given all its
    steps, the process has ended with status 1 and that line is in the
    log. *)
Theorem registration_failure_fatal (env : Env) (sched : list Tid)
    (reg : Registration) (err : Error) :
  let h := run env sched in
  let tr := events h in
  In (reg, Some err) (attempts tr) ->
  entered_run_loop tr = false /\
  (exists before,
     attempts tr = before ++ [(reg, Some err)] /\
     Forall (fun a => snd a = None) before) /\
  ((exit_status tr = Some 1%Z /\ In (registration_error reg err) (log tr)) \/
   (exit_status tr = Some 1%Z /\ exits (side_events h) <> []) \/
   (exit_status tr = None /\ ~ main_runs_to_end env sched)) /\
  (debug_serves env -> main_runs_to_end env sched ->
   exit_status tr = Some 1%Z /\ In (registration_error reg err) (log tr)).
Proof.
  intros h tr Hfail. subst tr h.
  assert (Hwhole : In (reg, Some err) (attempts (main_trace env)))
    by (revert Hfail; apply run_collect_in; intros []; simpl; tauto).
  apply registration_failure_trace in Hwhole
    as (Hs & He & Hl & before & Ha & Hbefore).
  assert (Hst : starts (events (run env sched)) = []).
  { apply prefix_of_nil. rewrite <- Hs.
    apply run_collect_prefix. intros []; simpl; tauto. }
  assert (Hend :
    (exit_status (events (run env sched)) = Some 1%Z /\
     In (registration_error reg err) (log (events (run env sched)))) \/
    (exit_status (events (run env sched)) = Some 1%Z /\
     exits (side_events (run env sched)) <> []) \/
    (exit_status (events (run env sched)) = None /\ ~ main_runs_to_end env sched)).
  { destruct (exit_status (events (run env sched))) as [code|] eqn:E.
    - apply run_exit_cases in E as [[Hm Hin]|[-> Hside]].
      + left. rewrite He in Hin. destruct Hin as [<-|[]].
        split; [reflexivity|].
        apply in_collect_events. left. fold log. now rewrite Hm.
      + right. left. now split.
    - right. right. split; [reflexivity | now apply run_alive]. }
  split; [|split; [|split]].
  - unfold entered_run_loop. now rewrite Hst.
  - exists before. split; [|exact Hbefore].
    apply prefix_with_last; [|exact Hfail|].
    + rewrite <- Ha. apply run_collect_prefix. intros []; simpl; tauto.
    + intros Hin. rewrite Forall_forall in Hbefore.
      apply Hbefore in Hin. discriminate.
  - exact Hend.
  - intros Hd Hf. destruct Hend as [Hend|[[_ Hside]|[_ Hnot]]].
    + exact Hend.
    + now rewrite (side_no_exit sched Hd) in Hside.
    + contradiction.
Qed.

Lemma registration_failure_fatal_witness :
  In (Controller MetalMachine, Some "no kind is registered")
     (attempts (events (run machine_fails (main_alone 13)))) /\
  entered_run_loop (events (run machine_fails (main_alone 13))) = false /\
  (exists before,
     attempts (events (run machine_fails (main_alone 13)))
       = before ++ [(Controller MetalMachine, Some "no kind is registered")] /\
     Forall (fun a => snd a = None) before) /\
  ((exit_status (events (run machine_fails (main_alone 13))) = Some 1%Z /\
    In (registration_error (Controller MetalMachine) "no kind is registered")
       (log (events (run machine_fails (main_alone 13))))) \/
   (exit_status (events (run machine_fails (main_alone 13))) = Some 1%Z /\
    exits (side_events (run machine_fails (main_alone 13))) <> []) \/
   (exit_status (events (run machine_fails (main_alone 13))) = None /\
    ~ main_runs_to_end machine_fails (main_alone 13))) /\
  (debug_serves machine_fails -> main_runs_to_end machine_fails (main_alone 13) ->
   exit_status (events (run machine_fails (main_alone 13))) = Some 1%Z /\
   In (registration_error (Controller MetalMachine) "no kind is registered")
      (log (events (run machine_fails (main_alone 13))))).
Proof.
  split.
  - vm_compute. right. left. reflexivity.
  - apply (registration_failure_fatal machine_fails (main_alone 13)
             (Controller MetalMachine) "no kind is registered").
    vm_compute. right. left. reflexivity.
Defined.

(** ** The debug goroutine *)

Lemma in_events (e : Event) (h : History) :
  In e (events h) <-> In e (main_events h) \/ In e (side_events h).
Proof.
  unfold events, main_events, side_events.
  induction h as [|[[] e'] h IH]; simpl; [tauto| |];
    unfold is_main, is_side; simpl; rewrite IH; tauto.
Qed.

(** When the debug server fails, the goroutine's events end with the error
    logged and the exit. *)
Lemma debug_path_failed (env : Env) (err : Error) :
  debug_result env debugAddr = Some err ->
  debug_path env =
    (map (fun msg => EvLog (LogInfo setupLog msg)) (debug_messages env debugAddr) ++
     [ EvListenAndServe debugAddr (Some err);
       EvLog (LogError setupLog err "failed to start debug server" []) ]) ++
    [ EvExit 1 ].
Proof.
  intros H. unfold debug_path. rewrite H. unfold fatal.
  now rewrite <- app_assoc.
Qed.

(** C9: when the debug server comes back with an error, then from any
    point of any execution where the goroutine has been started and the
    process is still alive, whatever main has done or met by then, letting
    the goroutine run ends the process with status 1, the error logged
    first. *)
Theorem debug_failure_fatal (env : Env) (pre : list Tid) (err : Error) :
  debug_result env debugAddr = Some err ->
  In (EvGo DebugServer) (events (run env pre)) ->
  exit_status (events (run env pre)) = None ->
  let n := List.length (debug_messages env debugAddr) + 3 in
  let h := run env (pre ++ repeat SideT n) in
  exit_status (events h) = Some 1%Z /\
  In (LogError setupLog err "failed to start debug server" []) (log (events h)) /\
  exits (main_events h) = [] /\
  side_events h = debug_path env.
Proof.
  intros Hfail Hgo Halive n h.
  assert (Hpath := debug_path_failed env Hfail).
  assert (Hlen : List.length (debug_trace env) <= n).
  { rewrite debug_trace_path, Hpath, !length_app, length_map. simpl. lia. }
  assert (Hexits : exits (debug_trace env) <> []).
  { rewrite debug_trace_path, Hpath. unfold exits. rewrite collect_app. simpl.
    intros H. now apply app_eq_nil in H as [_ H]. }
  assert (Hgo' : In (EvGo DebugServer) (main_events (run env pre))).
  { apply in_events in Hgo as [Hgo|Hgo]; [exact Hgo|].
    pose proof (run_side_kind env pre) as K. rewrite Forall_forall in K.
    now apply K in Hgo. }
  destruct (@interleave_side_to_exit pre n false (main_trace env) (debug_trace env)
              Halive (or_intror Hgo') Hexits Hlen) as [Hmain Hside].
  fold (run env (pre ++ repeat SideT n)) in Hmain, Hside. fold h in Hmain, Hside.
  assert (Hall : side_events h = debug_path env).
  { rewrite Hpath. apply prefix_with_last.
    - rewrite <- Hpath. apply run_side_prefix.
    - destruct (exits (side_events h)) as [|code l] eqn:E; [now destruct Hside|].
      assert (Hin : In code (exits (side_events h))) by (rewrite E; now left).
      pose proof (side_exit_code _ _ _ Hin) as ->.
      apply in_collect in Hin as (e & He & Hpick).
      destruct e; try discriminate. now injection Hpick as ->.
    - intros Hin. apply in_app_or in Hin as [Hin|[Hin|[Hin|[]]]];
        [|discriminate|discriminate].
      apply in_map_iff in Hin as (msg & Hmsg & _). discriminate. }
  repeat split; [| |exact Hmain|exact Hall].
  - destruct (exit_status (events h)) as [code|] eqn:E.
    + apply exit_status_in, in_collect_events in E. fold exits in E.
      rewrite Hmain in E. destruct E as [[]|E].
      now apply side_exit_code in E as ->.
    + exfalso. apply exit_status_none in E.
      destruct (exits (side_events h)) as [|code l] eqn:E'; [now destruct Hside|].
      assert (Hin : In code (exits (events h))).
      { apply in_collect_events. right. fold exits. rewrite E'. now left. }
      rewrite E in Hin. destruct Hin.
  - apply in_collect_events. right. fold log. rewrite Hall, Hpath.
    unfold log. rewrite !collect_app. apply in_or_app. left.
    apply in_or_app. right. simpl. now left.
Qed.

(** The debug address is taken; the goroutine runs after main has built
    the manager. *)
Lemma debug_failure_fatal_witness :
  debug_result debug_port_taken debugAddr
    = Some "listen tcp :9994: bind: address already in use" /\
  In (EvGo DebugServer) (events (run debug_port_taken (main_alone 6))) /\
  exit_status (events (run debug_port_taken (main_alone 6))) = None /\
  exit_status (events (run debug_port_taken (main_alone 6 ++ repeat SideT 4)))
    = Some 1%Z /\
  In (LogError setupLog "listen tcp :9994: bind: address already in use"
        "failed to start debug server" [])
     (log (events (run debug_port_taken (main_alone 6 ++ repeat SideT 4)))) /\
  exits (main_events (run debug_port_taken (main_alone 6 ++ repeat SideT 4))) = [] /\
  side_events (run debug_port_taken (main_alone 6 ++ repeat SideT 4))
    = debug_path debug_port_taken.
Proof.
  split; [reflexivity|].
  split; [vm_compute; right; left; reflexivity|].
  split; [reflexivity|].
  apply (debug_failure_fatal debug_port_taken (main_alone 6)
           (err := "listen tcp :9994: bind: address already in use")).
  - reflexivity.
  - vm_compute. right. left. reflexivity.
  - reflexivity.
Defined.

(** ** Runs of the program *)

(** No flags, every call succeeding: reconciliation mode, a clean stop. *)
Example run_healthy :
  let tr := events (run healthy (main_alone 17)) in
  map registered_kind (reconcilers tr) = [MetalCluster; MetalMachine; ServerBinding] /\
  webhooks tr = [] /\
  entered_run_loop tr = true /\
  exit_status tr = Some 0%Z.
Proof. repeat split. Qed.

(** [-webhook-port=9443]: webhook mode. *)
Example run_admission :
  let tr := events (run admission (main_alone 18)) in
  webhooks tr = [MetalCluster; MetalMachine; MetalMachineTemplate; ServerBinding] /\
  reconcilers tr = [] /\
  map (fun x => Port (snd (fst x))) (manager_calls tr) = [9443%Z] /\
  exit_status tr = Some 0%Z.
Proof. repeat split. Qed.

(** The manager cannot be built: the error is logged, status 1. *)
Example run_manager_down :
  let tr := events (run manager_down (main_alone 7)) in
  log tr = [LogError setupLog "connection refused" "unable to start manager" []] /\
  attempts tr = [] /\
  entered_run_loop tr = false /\
  exit_status tr = Some 1%Z.
Proof. repeat split. Qed.

(** The second reconciler cannot be registered: the third is not tried. *)
Example run_machine_fails :
  let tr := events (run machine_fails (main_alone 13)) in
  attempts tr = [(Controller MetalCluster, None);
                 (Controller MetalMachine, Some "no kind is registered")] /\
  log tr = [LogError setupLog "no kind is registered" "unable to create controller"
              ["controller"; "MetalMachine"]] /\
  entered_run_loop tr = false /\
  exit_status tr = Some 1%Z.
Proof. repeat split. Qed.

(** The debug address is taken while the manager is running. *)
Example run_debug_port_taken :
  let tr := events (run debug_port_taken (main_alone 15 ++ repeat SideT 4)) in
  entered_run_loop tr = true /\
  In (LogError setupLog "listen tcp :9994: bind: address already in use"
        "failed to start debug server" []) (log tr) /\
  exit_status tr = Some 1%Z.
Proof. repeat split; vm_compute; auto. Qed.

(** The goroutine's failure can come between a failed registration and the
    line main would log for it: the status is 1 all the same. *)
Example run_both_fail :
  let env := {|
    os_Args := [];
    debug_messages := fun _ => [];
    debug_result := fun _ => Some "address already in use";
    kubeconfig := kubeconfig healthy;
    manager_result := fun _ _ => None;
    clientset_result := fun _ => None;
    controller_result := fun _ _ _ => Some "no kind is registered";
    webhook_result := fun _ _ => None;
    start_result := fun _ => None |} in
  let tr := events (run env (main_alone 10 ++ repeat SideT 3)) in
  attempts tr = [(Controller MetalCluster, Some "no kind is registered")] /\
  log tr = [LogError setupLog "address already in use" "failed to start debug server" []] /\
  exit_status tr = Some 1%Z.
Proof. repeat split. Qed.

(** No cluster configuration is found: [GetConfigOrDie] ends the process
    before the manager constructor is called. *)
Example run_no_config :
  let env := {|
    os_Args := [];
    debug_messages := fun _ => [];
    debug_result := fun _ => None;
    kubeconfig := None;
    manager_result := fun _ _ => None;
    clientset_result := fun _ => None;
    controller_result := fun _ _ _ => None;
    webhook_result := fun _ _ => None;
    start_result := fun _ => None |} in
  let tr := events (run env (main_alone 5)) in
  manager_calls tr = [] /\ attempts tr = [] /\
  entered_run_loop tr = false /\
  exit_status tr = Some 1%Z.
Proof. repeat split. Qed.

(** A flag that is not defined: the flag package ends the process. *)
Example run_usage :
  let tr := events (run (with_args [("port", VInt 9443)] healthy) (main_alone 1)) in
  tr = [EvExit 2].
Proof. reflexivity. Qed.

(** * More of the program *)

Unset Implicit Arguments.

(** ** The flag set *)

Lemma flag_Set_lookup (name : string) (v : FlagValue) (fs fs' : FlagSet) (n : string) :
  flag_Set name v fs = Some fs' ->
  flag_Lookup n fs' = if String.eqb n name then Some v else flag_Lookup n fs.
Proof.
  revert fs'. induction fs as [|[m old] fs IH]; intros fs' H; simpl in *; [discriminate|].
  destruct (String.eqb m name) eqn:E.
  - destruct (same_kind old v); [|discriminate]. injection H as <-. simpl.
    apply String.eqb_eq in E. subst m.
    rewrite (String.eqb_sym n name). now destruct (String.eqb name n).
  - destruct (flag_Set name v fs) as [fs1|]; [|discriminate]. injection H as <-.
    simpl. rewrite (IH fs1 eq_refl).
    destruct (String.eqb m n) eqn:E'; [|reflexivity].
    apply String.eqb_eq in E'. subst m. now rewrite E.
Qed.

Lemma flag_parse_lookup (arguments : list (string * FlagValue)) (fs fs' : FlagSet)
    (name : string) :
  flag_parse arguments fs = Some fs' ->
  flag_Lookup name fs' =
    match last_setting name arguments with
    | Some v => Some v
    | None => flag_Lookup name fs
    end.
Proof.
  revert fs. induction arguments as [|[n v] rest IH]; intros fs H; simpl in *.
  - now injection H as <-.
  - destruct (flag_Set n v fs) as [fs1|] eqn:E; [|discriminate].
    rewrite (IH _ H). destruct (last_setting name rest); [reflexivity|].
    rewrite (flag_Set_lookup _ _ _ _ name E). rewrite String.eqb_sym.
    now destruct (String.eqb n name).
Qed.

Lemma same_kind_trans (a b c : FlagValue) :
  same_kind a b = true -> same_kind b c = true -> same_kind a c = true.
Proof. destruct a, b, c; simpl; congruence. Qed.

Lemma flag_Set_same_flag (name : string) (v : FlagValue) (fs fs' : FlagSet) (n : string) :
  flag_Set name v fs = Some fs' ->
  same_flag (flag_Lookup n fs) (flag_Lookup n fs').
Proof.
  revert fs'. induction fs as [|[m old] fs IH]; intros fs' H; simpl in *; [discriminate|].
  destruct (String.eqb m name) eqn:E.
  - destruct (same_kind old v) eqn:K; [|discriminate]. injection H as <-. simpl.
    destruct (String.eqb m n); simpl; [exact K|].
    destruct (flag_Lookup n fs) as [x|]; simpl; [now destruct x | exact I].
  - destruct (flag_Set name v fs) as [fs1|]; [|discriminate]. injection H as <-.
    simpl. destruct (String.eqb m n); simpl; [now destruct old|].
    now apply IH.
Qed.

Lemma flag_parse_same_flag (arguments : list (string * FlagValue)) (fs fs' : FlagSet)
    (n : string) :
  flag_parse arguments fs = Some fs' ->
  same_flag (flag_Lookup n fs) (flag_Lookup n fs').
Proof.
  revert fs. induction arguments as [|[m v] rest IH]; intros fs H; simpl in *.
  - injection H as <-. destruct (flag_Lookup n fs) as [x|]; simpl; [now destruct x | exact I].
  - destruct (flag_Set m v fs) as [fs1|] eqn:E; [|discriminate].
    pose proof (flag_Set_same_flag _ _ _ _ n E) as H1.
    pose proof (IH _ H) as H2.
    destruct (flag_Lookup n fs) as [a|], (flag_Lookup n fs1) as [b|],
      (flag_Lookup n fs') as [c|]; simpl in *; try tauto.
    eapply same_kind_trans; eassumption.
Qed.

(** The value of a flag after an accepted command line: the last setting
    given, of the flag's type, or else the default. *)
Lemma parsed_flag_value (env : Env) (fs : FlagSet) (name : string) (default : FlagValue) :
  parsed_flags env = Some fs ->
  flag_Lookup name (defineFlags CommandLine) = Some default ->
  exists v,
    flag_Lookup name fs = Some v /\ same_kind default v = true /\
    (last_setting name (os_Args env) = Some v \/
     last_setting name (os_Args env) = None /\ v = default).
Proof.
  unfold parsed_flags. intros H Hd.
  pose proof (flag_parse_lookup _ _ _ name H) as L.
  pose proof (flag_parse_same_flag _ _ _ name H) as K.
  rewrite Hd in K, L.
  destruct (last_setting name (os_Args env)) as [v|]; rewrite L in K; simpl in K.
  - exists v. auto.
  - exists default. auto.
Qed.

(** X1: the manager is built with the values the command line leaves in
    the three flags: for each flag the last setting given, and the default
    (":8080", true, 0) when the command line does not set it. *)
Theorem flags_reach_manager (env : Env) (sched : list Tid)
    (c : RestConfig) (o : Options) (res : option Error) :
  In (c, o, res) (manager_calls (events (run env sched))) ->
  (last_setting "metrics-addr" (os_Args env) = Some (VString (MetricsBindAddress o)) \/
   last_setting "metrics-addr" (os_Args env) = None /\ MetricsBindAddress o = ":8080") /\
  (last_setting "enable-leader-election" (os_Args env) = Some (VBool (LeaderElection o)) \/
   last_setting "enable-leader-election" (os_Args env) = None /\ LeaderElection o = true) /\
  (last_setting "webhook-port" (os_Args env) = Some (VInt (Port o)) \/
   last_setting "webhook-port" (os_Args env) = None /\ Port o = 0%Z).
Proof.
  intros H. apply manager_call_inv in H as (fs & Hfs & _ & -> & _).
  unfold options_of; simpl. unfold stringOf, boolOf, intOf.
  destruct (parsed_flag_value env fs "metrics-addr" _ Hfs eq_refl) as (v1 & -> & K1 & H1).
  destruct (parsed_flag_value env fs "enable-leader-election" _ Hfs eq_refl) as (v2 & -> & K2 & H2).
  destruct (parsed_flag_value env fs "webhook-port" _ Hfs eq_refl) as (v3 & -> & K3 & H3).
  destruct v1; try discriminate. destruct v2; try discriminate.
  destruct v3; try discriminate.
  repeat split.
  - destruct H1 as [H1|[H1 [= ->]]]; auto.
  - destruct H2 as [H2|[H2 [= ->]]]; auto.
  - destruct H3 as [H3|[H3 [= ->]]]; auto.
Qed.

Lemma flags_reach_manager_witness :
  let arguments := [("webhook-port", VInt 8443); ("enable-leader-election", VBool false);
                    ("webhook-port", VInt 9443)] in
  let o := options_of [("metrics-addr", VString ":8080");
                       ("enable-leader-election", VBool false);
                       ("webhook-port", VInt 9443)] in
  In ({| Host := "https://10.96.0.1:443" |}, o, None)
     (manager_calls (events (run (with_args arguments healthy) (main_alone 5)))) /\
  (last_setting "metrics-addr" arguments = Some (VString (MetricsBindAddress o)) \/
   last_setting "metrics-addr" arguments = None /\ MetricsBindAddress o = ":8080") /\
  (last_setting "enable-leader-election" arguments = Some (VBool (LeaderElection o)) \/
   last_setting "enable-leader-election" arguments = None /\ LeaderElection o = true) /\
  (last_setting "webhook-port" arguments = Some (VInt (Port o)) \/
   last_setting "webhook-port" arguments = None /\ Port o = 0%Z).
Proof.
  intros arguments o.
  assert (H : In ({| Host := "https://10.96.0.1:443" |}, o, None)
     (manager_calls (events (run (with_args arguments healthy) (main_alone 5)))))
    by (vm_compute; left; reflexivity).
  split; [exact H|].
  exact (flags_reach_manager (with_args arguments healthy) (main_alone 5) _ _ _ H).
Defined.

(** ** More on how the process ends *)

Ltac main_only_more :=
  unfold clientset_calls, config_lookups, start_returns in *; main_only.

(** The goroutine exits only after it has logged the debug server's error. *)
Lemma side_exit_logged (env : Env) (sched : list Tid) :
  exits (side_events (run env sched)) <> [] ->
  exists err,
    debug_result env debugAddr = Some err /\
    In (LogError setupLog err "failed to start debug server" [])
       (log (events (run env sched))).
Proof.
  intros Hside.
  destruct (debug_result env debugAddr) as [err|] eqn:Hd.
  - exists err. split; [reflexivity|].
    pose proof (debug_path_failed env Hd) as Hpath.
    assert (Hall : side_events (run env sched) = debug_path env).
    { rewrite Hpath. apply prefix_with_last.
      - rewrite <- Hpath. apply run_side_prefix.
      - destruct (exits (side_events (run env sched))) as [|code l] eqn:E;
          [now destruct Hside|].
        assert (Hin : In code (exits (side_events (run env sched))))
          by (rewrite E; now left).
        pose proof (side_exit_code _ _ _ Hin) as ->.
        apply in_collect in Hin as (e & He & Hpick).
        destruct e; try discriminate. now injection Hpick as ->.
      - intros Hin. apply in_app_or in Hin as [Hin|[Hin|[Hin|[]]]];
          [|discriminate|discriminate].
        apply in_map_iff in Hin as (msg & Hmsg & _). discriminate. }
    apply in_collect_events. right. fold log. rewrite Hall, Hpath.
    unfold log. rewrite !collect_app. apply in_or_app. left.
    apply in_or_app. right. simpl. now left.
  - now rewrite (side_no_exit sched Hd) in Hside.
Qed.

(** Where [main]'s path ends in a fatal error, the process never ends with
    another status than 1, and ends with the error logged when the debug
    server serves and [main] is given its steps. *)
Lemma main_fatal_end (env : Env) (sched : list Tid) (entry : LogEntry) :
  exits (main_trace env) = [1%Z] ->
  In entry (log (main_trace env)) ->
  let tr := events (run env sched) in
  (exit_status tr = None \/ exit_status tr = Some 1%Z) /\
  (debug_serves env -> main_runs_to_end env sched ->
   exit_status tr = Some 1%Z /\ In entry (log tr)).
Proof.
  intros He Hl tr. subst tr.
  destruct (exit_status (events (run env sched))) as [code|] eqn:E.
  - pose proof E as E'.
    apply run_exit_cases in E as [[Hm Hin]|[-> Hside]].
    + rewrite He in Hin. destruct Hin as [<-|[]].
      split; [now right|]. intros _ _. split; [reflexivity|].
      apply in_collect_events. left. fold log. now rewrite Hm.
    + split; [now right|]. intros Hd _.
      now rewrite (side_no_exit sched Hd) in Hside.
  - split; [now left|]. intros _ Hf. now apply run_ends in Hf.
Qed.

(** Every prefix of every path of [main], with what the execution has
    collected read from [main]'s part. *)
Ltac every_prefix env sched :=
  main_only_more;
  let Hp := fresh "Hp" in
  let P := fresh "P" in
  let p := fresh "p" in
  pose proof (run_main_prefix env sched) as Hp;
  pose proof (main_paths env) as P;
  set (p := main_events (run env sched)) in *;
  clearbody p;
  destruct P; unfold_path; prefix_cases Hp; simpl.

Ltac one_of H :=
  repeat (destruct H as [H|H]; [inversion H; subst; try clear H|]);
  try contradiction.

(** The path of [main] on which the clientset cannot be made. *)
Lemma clientset_failure_trace (env : Env) (c : RestConfig) (err : Error) :
  In (c, Some err) (clientset_calls (main_trace env)) ->
  exits (main_trace env) = [1%Z] /\
  In (LogError setupLog err "unable to create k8s client" []) (log (main_trace env)).
Proof.
  destruct (main_paths env); unfold_path; simpl; try tauto;
    intros Hcall; one_of Hcall; auto.
Qed.

(** X2: in an execution where kubernetes.NewForConfig has come back with
    an error, the manager has been built from the same configuration, only
    the first broadcaster has been made, and no sink, recorder or
    registration follows and the run loop is not entered; the process never
    ends with another status than 1, and with the debug server serving and
    main given all its steps it has ended with status 1 with the error
    logged as "unable to create k8s client". *)
Theorem clientset_failure_fatal (env : Env) (sched : list Tid)
    (c : RestConfig) (err : Error) :
  let tr := events (run env sched) in
  In (c, Some err) (clientset_calls tr) ->
  (exists o, In (c, o, None) (manager_calls tr)) /\
  broadcasters tr = [(0, {| BurstSize := 100%Z |})] /\
  sinks tr = [] /\ recorders tr = [] /\ attempts tr = [] /\
  entered_run_loop tr = false /\
  (exit_status tr = None \/ exit_status tr = Some 1%Z) /\
  (debug_serves env -> main_runs_to_end env sched ->
   exit_status tr = Some 1%Z /\
   In (LogError setupLog err "unable to create k8s client" []) (log tr)).
Proof.
  intros tr Hcall. subst tr.
  assert (Hwhole : In (c, Some err) (clientset_calls (main_trace env)))
    by (revert Hcall; apply run_collect_in; intros []; simpl; tauto).
  apply clientset_failure_trace in Hwhole as (He & Hl).
  pose proof (main_fatal_end env sched _ He Hl) as Hend. simpl in Hend.
  assert (Hsafe :
    (exists o, In (c, o, None) (manager_calls (events (run env sched)))) /\
    broadcasters (events (run env sched)) = [(0, {| BurstSize := 100%Z |})] /\
    sinks (events (run env sched)) = [] /\
    recorders (events (run env sched)) = [] /\
    attempts (events (run env sched)) = [] /\
    entered_run_loop (events (run env sched)) = false).
  { clear Hend He Hl. revert Hcall.
    every_prefix env sched; try tauto; intros Hcall; one_of Hcall;
      (split; [eexists; left; reflexivity | repeat split]). }
  tauto.
Qed.

Lemma clientset_failure_fatal_witness :
  let tr := events (run clientset_down (main_alone 9)) in
  let c := {| Host := "https://10.96.0.1:443" |} in
  In (c, Some "no host") (clientset_calls tr) /\
  (exists o, In (c, o, None) (manager_calls tr)) /\
  broadcasters tr = [(0, {| BurstSize := 100%Z |})] /\
  sinks tr = [] /\ recorders tr = [] /\ attempts tr = [] /\
  entered_run_loop tr = false /\
  (exit_status tr = None \/ exit_status tr = Some 1%Z) /\
  (debug_serves clientset_down -> main_runs_to_end clientset_down (main_alone 9) ->
   exit_status tr = Some 1%Z /\
   In (LogError setupLog "no host" "unable to create k8s client" []) (log tr)).
Proof.
  intros tr c.
  assert (H : In (c, Some "no host") (clientset_calls tr))
    by (vm_compute; left; reflexivity).
  split; [exact H|].
  exact (clientset_failure_fatal clientset_down (main_alone 9) c "no host" H).
Defined.

(** The paths of [main] on which [mgr.Start] returns. *)
Lemma start_return_trace (env : Env) (res : option Error) :
  In res (start_returns (main_trace env)) ->
  match res with
  | None => exits (main_trace env) = [0%Z]
  | Some err =>
      exits (main_trace env) = [1%Z] /\
      In (LogError setupLog err "problem running manager" []) (log (main_trace env))
  end.
Proof.
  destruct (main_paths env); unfold_path; simpl; try tauto;
    intros Hres; one_of Hres; auto.
Qed.

(** X3: when mgr.Start has returned, every registration of the mode was
    made before and none failed.  If it returned an error the process never
    ends with another status than 1 and, with the debug server serving and
    main given all its steps, has ended with status 1 with the error logged
    as "problem running manager"; if it returned no error the process has
    then ended with status 0. *)
Theorem run_loop_result (env : Env) (sched : list Tid) (res : option Error) :
  let tr := events (run env sched) in
  In res (start_returns tr) ->
  entered_run_loop tr = true /\
  (map fst (attempts tr) = reconciliation_mode \/
   map fst (attempts tr) = webhook_mode) /\
  Forall (fun a => snd a = None) (attempts tr) /\
  match res with
  | Some err =>
      (exit_status tr = None \/ exit_status tr = Some 1%Z) /\
      (debug_serves env -> main_runs_to_end env sched ->
       exit_status tr = Some 1%Z /\
       In (LogError setupLog err "problem running manager" []) (log tr))
  | None =>
      debug_serves env -> main_runs_to_end env sched -> exit_status tr = Some 0%Z
  end.
Proof.
  intros tr Hres. subst tr.
  assert (Hwhole : In res (start_returns (main_trace env)))
    by (revert Hres; apply run_collect_in; intros []; simpl; tauto).
  apply start_return_trace in Hwhole.
  assert (Hsafe :
    entered_run_loop (events (run env sched)) = true /\
    (map fst (attempts (events (run env sched))) = reconciliation_mode \/
     map fst (attempts (events (run env sched))) = webhook_mode) /\
    Forall (fun a => snd a = None) (attempts (events (run env sched)))).
  { clear Hwhole. revert Hres.
    every_prefix env sched; try tauto; intros Hres; one_of Hres;
      (split; [reflexivity|]; split; [auto | repeat constructor]). }
  destruct Hsafe as (H1 & H2 & H3).
  split; [exact H1|]. split; [exact H2|]. split; [exact H3|].
  destruct res as [err|].
  - destruct Hwhole as [He Hl]. exact (main_fatal_end env sched _ He Hl).
  - intros Hd Hf.
    pose proof (run_main_complete Hd Hf) as Hm.
    destruct (exit_status (events (run env sched))) as [code|] eqn:E.
    + apply run_exit_cases in E as [[_ Hin]|[_ Hside]].
      * rewrite Hwhole in Hin. destruct Hin as [<-|[]]. reflexivity.
      * now rewrite (side_no_exit sched Hd) in Hside.
    + now apply run_ends in Hf.
Qed.

Lemma run_loop_result_witness :
  let tr := events (run run_loop_breaks (main_alone 18)) in
  In (Some "leader election lost") (start_returns tr) /\
  entered_run_loop tr = true /\
  (map fst (attempts tr) = reconciliation_mode \/
   map fst (attempts tr) = webhook_mode) /\
  Forall (fun a => snd a = None) (attempts tr) /\
  (exit_status tr = None \/ exit_status tr = Some 1%Z) /\
  (debug_serves run_loop_breaks -> main_runs_to_end run_loop_breaks (main_alone 18) ->
   exit_status tr = Some 1%Z /\
   In (LogError setupLog "leader election lost" "problem running manager" []) (log tr)).
Proof.
  intros tr.
  assert (H : In (Some "leader election lost") (start_returns tr))
    by (vm_compute; left; reflexivity).
  split; [exact H|].
  exact (run_loop_result run_loop_breaks (main_alone 18) (Some "leader election lost") H).
Defined.

(** X4: once the command line is accepted, the process ends with status
    0 only after the run loop was entered, with every registration of the
    mode made and none failed, and mgr.Start has returned without an
    error. *)
Theorem clean_exit_after_clean_stop (env : Env) (sched : list Tid) :
  let tr := events (run env sched) in
  parsed_flags env <> None ->
  exit_status tr = Some 0%Z ->
  In None (start_returns tr) /\
  entered_run_loop tr = true /\
  (map fst (attempts tr) = reconciliation_mode \/
   map fst (attempts tr) = webhook_mode) /\
  Forall (fun a => snd a = None) (attempts tr).
Proof.
  intros tr _ E. subst tr.
  apply run_exit_cases in E as [[Hm Hin]|[Hone _]]; [|discriminate].
  revert Hin. main_only_more. rewrite Hm. clear Hm.
  destruct (main_paths env); unfold_path; simpl; intros Hin; one_of Hin;
    (split; [left; reflexivity|]; split; [reflexivity|];
     split; [auto | repeat constructor]).
Qed.

Lemma clean_exit_after_clean_stop_witness :
  let tr := events (run admission (main_alone 18)) in
  (parsed_flags admission <> None /\ exit_status tr = Some 0%Z) /\
  In None (start_returns tr) /\
  entered_run_loop tr = true /\
  (map fst (attempts tr) = reconciliation_mode \/
   map fst (attempts tr) = webhook_mode) /\
  Forall (fun a => snd a = None) (attempts tr).
Proof.
  intros tr.
  assert (H : parsed_flags admission <> None /\ exit_status tr = Some 0%Z)
    by (split; [discriminate | reflexivity]).
  split; [exact H|].
  exact (clean_exit_after_clean_stop admission (main_alone 18) (proj1 H) (proj2 H)).
Defined.

(** X5: when ctrl.GetConfigOrDie finds no configuration of the cluster
    API, the manager constructor is never called, nothing is registered,
    main logs nothing, and the process never ends with another status than
    1; it has ended with status 1 once main has been given all its steps. *)
Theorem no_config_fatal (env : Env) (sched : list Tid) :
  let h := run env sched in
  let tr := events h in
  In None (config_lookups tr) ->
  kubeconfig env = None /\
  manager_calls tr = [] /\ attempts tr = [] /\ entered_run_loop tr = false /\
  log (main_events h) = [] /\
  (exit_status tr = None \/ exit_status tr = Some 1%Z) /\
  (main_runs_to_end env sched -> exit_status tr = Some 1%Z).
Proof.
  intros h tr Hnone. subst tr h.
  assert (Hsafe :
    kubeconfig env = None /\
    manager_calls (events (run env sched)) = [] /\
    attempts (events (run env sched)) = [] /\
    entered_run_loop (events (run env sched)) = false /\
    log (main_events (run env sched)) = [] /\
    exits (main_trace env) = [1%Z]).
  { revert Hnone.
    every_prefix env sched; try tauto; intros Hnone; one_of Hnone;
      repeat split; assumption. }
  destruct Hsafe as (Hk & Hm & Ha & Hr & Hl & He).
  repeat (split; [assumption|]).
  assert (Hcode : forall code, exit_status (events (run env sched)) = Some code ->
                  code = 1%Z).
  { intros code E. apply run_exit_cases in E as [[_ Hin]|[-> _]]; [|reflexivity].
    rewrite He in Hin. now destruct Hin as [<-|[]]. }
  split.
  - destruct (exit_status (events (run env sched))) as [code|] eqn:E; [|now left].
    right. now rewrite (Hcode code eq_refl).
  - intros Hf. pose proof (run_ends Hf) as Hne.
    destruct (exit_status (events (run env sched))) as [code|] eqn:E;
      [|now destruct Hne].
    now rewrite (Hcode code eq_refl).
Qed.

Lemma no_config_fatal_witness :
  let h := run no_kubeconfig (main_alone 5) in
  let tr := events h in
  In None (config_lookups tr) /\
  kubeconfig no_kubeconfig = None /\
  manager_calls tr = [] /\ attempts tr = [] /\ entered_run_loop tr = false /\
  log (main_events h) = [] /\
  (exit_status tr = None \/ exit_status tr = Some 1%Z) /\
  (main_runs_to_end no_kubeconfig (main_alone 5) -> exit_status tr = Some 1%Z).
Proof.
  intros h tr.
  assert (H : In None (config_lookups tr)) by (vm_compute; left; reflexivity).
  split; [exact H|].
  exact (no_config_fatal no_kubeconfig (main_alone 5) H).
Defined.

(** X6: in every execution the registrations attempted so far are the
    first ones of one mode, in the order of the source: MetalCluster,
    MetalMachine, ServerBinding for the reconcilers, MetalCluster,
    MetalMachine, MetalMachineTemplate, ServerBinding for the webhooks;
    and every one but the last attempted has succeeded. *)
Theorem registration_order (env : Env) (sched : list Tid) :
  let tr := events (run env sched) in
  (prefix (map fst (attempts tr)) reconciliation_mode \/
   prefix (map fst (attempts tr)) webhook_mode) /\
  Forall (fun a => snd a = None) (removelast (attempts tr)).
Proof.
  intros tr. subst tr.
  every_prefix env sched;
    (split;
     [ first [ left; unfold reconciliation_mode;
               solve [ apply prefix_nil | apply prefix_refl
                     | repeat apply prefix_cons; apply prefix_nil ]
             | right; unfold webhook_mode;
               solve [ apply prefix_nil | apply prefix_refl
                     | repeat apply prefix_cons; apply prefix_nil ] ]
     | repeat constructor ]).
Qed.

(** X7: the sink that events are recorded to is the events interface, for
    all namespaces, of a clientset made from the configuration the manager
    was built from; it is started once at most, on the second
    broadcaster. *)
Theorem sink_from_manager_config (env : Env) (sched : list Tid)
    (b : BroadcasterId) (sink : EventSinkImpl) :
  let tr := events (run env sched) in
  In (b, sink) (sinks tr) ->
  exists c o,
    In (c, o, None) (manager_calls tr) /\
    In (c, None) (clientset_calls tr) /\
    sink = {| Interface := {| ev_clientset := {| cs_config := c |};
                              ev_namespace := "" |} |} /\
    sinks tr = [(1, sink)].
Proof.
  intros tr. subst tr.
  every_prefix env sched; try tauto; intros Hsink; one_of Hsink;
    do 2 eexists; repeat split; left; reflexivity.
Qed.

Lemma sink_from_manager_config_witness :
  let tr := events (run healthy (main_alone 8)) in
  let sink := the_sink {| Host := "https://10.96.0.1:443" |} in
  In (1, sink) (sinks tr) /\
  exists c o,
    In (c, o, None) (manager_calls tr) /\
    In (c, None) (clientset_calls tr) /\
    sink = {| Interface := {| ev_clientset := {| cs_config := c |};
                              ev_namespace := "" |} |} /\
    sinks tr = [(1, sink)].
Proof.
  intros tr sink.
  assert (H : In (1, sink) (sinks tr)) by (vm_compute; left; reflexivity).
  split; [exact H|].
  exact (sink_from_manager_config healthy (main_alone 8) 1 sink H).
Defined.

(** X8: every reconciler registered logs under the name "controllers"
    followed by the name of the API type it looks after. *)
Theorem reconciler_logger_names (env : Env) (sched : list Tid)
    (r : Reconciler) (mgr : Manager) (o : ControllerOptions) :
  In (r, mgr, o) (reconcilers (events (run env sched))) ->
  logger_of r = ["controllers"; kind_name (kind_of r)].
Proof.
  every_prefix env sched; try tauto; intros Hin; one_of Hin; reflexivity.
Qed.

Lemma reconciler_logger_names_witness :
  let m := manager_of (defineFlags CommandLine) {| Host := "https://10.96.0.1:443" |} in
  In (machineReconciler m, m, ten) (reconcilers (events (run healthy (main_alone 12)))) /\
  logger_of (machineReconciler m) = ["controllers"; kind_name (kind_of (machineReconciler m))].
Proof.
  intros m.
  assert (H : In (machineReconciler m, m, ten)
                (reconcilers (events (run healthy (main_alone 12)))))
    by (vm_compute; right; left; reflexivity).
  split; [exact H|].
  exact (reconciler_logger_names healthy (main_alone 12) _ _ _ H).
Defined.

(** ** More on the debug goroutine *)

Lemma collect_side_only {X} (pick : Event -> option X) (h : History) :
  Forall (fun e => pick e = None) (main_events h) ->
  collect pick (events h) = collect pick (side_events h).
Proof.
  unfold events, main_events, side_events.
  induction h as [|[[] e] h IH]; simpl; intros H; [reflexivity| |].
  - unfold is_main, is_side in *; simpl in *. inversion H as [|? ? He Hr]; subst.
    rewrite He. auto.
  - unfold is_main, is_side in *; simpl in *. destruct (pick e); rewrite IH; auto.
Qed.

(** [main] itself never calls the debug server. *)
Lemma main_never_listens (env : Env) (sched : list Tid) :
  Forall (fun e => match e with EvListenAndServe _ _ => False | _ => True end)
    (main_events (run env sched)).
Proof.
  pose proof (run_main_prefix env sched) as [rest Hp].
  assert (H : Forall (fun e => match e with EvListenAndServe _ _ => False | _ => True end)
                (main_trace env))
    by (destruct (main_paths env); unfold_path; repeat constructor).
  rewrite Hp in H. now apply Forall_app in H.
Qed.

(** Once the goroutine is started the logger has been set. *)
Lemma started_after_logger (env : Env) (sched : list Tid) :
  In (EvGo DebugServer) (main_events (run env sched)) ->
  exists rest, main_events (run env sched) = EvSetLogger true :: EvGo DebugServer :: rest.
Proof.
  every_prefix env sched; try tauto; intros Hgo; one_of Hgo;
    eexists; reflexivity.
Qed.

(** X9: the debug server is called once at most, on the address ":9994"
    whatever the flags, and only after main has set the logger and started
    the goroutine, as its first two steps. *)
Theorem debug_server_call (env : Env) (sched : list Tid)
    (addr : string) (res : option Error) :
  let h := run env sched in
  In (addr, res) (listens (events h)) ->
  addr = ":9994" /\ res = debug_result env ":9994" /\
  listens (events h) = [(addr, res)] /\
  exists rest, main_events h = EvSetLogger true :: EvGo DebugServer :: rest.
Proof.
  intros h Hin. subst h.
  assert (Hside : listens (events (run env sched)) = listens (side_events (run env sched))).
  { apply collect_side_only. eapply Forall_impl; [|apply main_never_listens].
    intros []; simpl; tauto. }
  rewrite Hside in *.
  assert (Hp : prefix (listens (side_events (run env sched)))
                 [(debugAddr, debug_result env debugAddr)]).
  { replace [(debugAddr, debug_result env debugAddr)] with (listens (debug_path env)).
    - apply collect_prefix, run_side_prefix.
    - unfold debug_path, listens. rewrite collect_app. simpl.
      replace (collect _ (map _ (debug_messages env debugAddr)))
        with (@nil (string * option Error))
        by (induction (debug_messages env debugAddr); simpl; auto).
      simpl. destruct (debug_result env debugAddr); reflexivity. }
  assert (Hne : side_events (run env sched) <> [])
    by (intros Hnil; rewrite Hnil in Hin; destruct Hin).
  apply interleave_side_after_go in Hne. apply started_after_logger in Hne.
  apply prefix_cons_inv in Hp as [Hp|(q & Hq & Hp)].
  - rewrite Hp in Hin. destruct Hin.
  - apply prefix_of_nil in Hp. subst q. rewrite Hq in *.
    destruct Hin as [[= <- <-]|[]]. repeat split. exact Hne.
Qed.

Lemma debug_server_call_witness :
  let h := run debug_port_taken [MainT; MainT; SideT; SideT; MainT] in
  In (":9994", Some "listen tcp :9994: bind: address already in use")
     (listens (events h)) /\
  ":9994" = ":9994" /\
  Some "listen tcp :9994: bind: address already in use"
    = debug_result debug_port_taken ":9994" /\
  listens (events h) = [(":9994", Some "listen tcp :9994: bind: address already in use")] /\
  exists rest, main_events h = EvSetLogger true :: EvGo DebugServer :: rest.
Proof.
  intros h.
  assert (H : In (":9994", Some "listen tcp :9994: bind: address already in use")
                (listens (events h))) by (vm_compute; left; reflexivity).
  split; [exact H|].
  exact (debug_server_call debug_port_taken [MainT; MainT; SideT; SideT; MainT] _ _ H).
Defined.

(** X10: while the debug server keeps serving, the goroutine never calls
    os.Exit and logs nothing of its own: what it has logged is, in order,
    the first of the messages the debug server reports, each as an Info
    line of the setup logger. *)
Theorem serving_debug_server_harmless (env : Env) (sched : list Tid) :
  debug_serves env ->
  let h := run env sched in
  exits (side_events h) = [] /\
  prefix (log (side_events h))
    (map (fun msg => LogInfo setupLog msg) (debug_messages env debugAddr)) /\
  Forall (fun entry => is_error_line entry = false) (log (side_events h)).
Proof.
  intros Hd h. subst h. split; [now apply side_no_exit|].
  assert (Hlog : log (debug_path env) =
                 map (fun msg => LogInfo setupLog msg) (debug_messages env debugAddr)).
  { unfold debug_path, log. rewrite collect_app, Hd. simpl. rewrite app_nil_r.
    induction (debug_messages env debugAddr); simpl; [reflexivity|].
    now f_equal. }
  assert (Hp : prefix (log (side_events (run env sched)))
                 (map (fun msg => LogInfo setupLog msg) (debug_messages env debugAddr))).
  { rewrite <- Hlog. apply collect_prefix, run_side_prefix. }
  split; [exact Hp|].
  destruct Hp as [rest Hp].
  assert (H : Forall (fun entry => is_error_line entry = false)
                (map (fun msg => LogInfo setupLog msg) (debug_messages env debugAddr))).
  { apply Forall_forall. intros entry Hin.
    apply in_map_iff in Hin as (msg & <- & _). reflexivity. }
  rewrite Hp in H. now apply Forall_app in H.
Qed.

(** A debug server that reports its start and keeps serving. *)
Lemma serving_debug_server_harmless_witness :
  let env := {|
    os_Args := [];
    debug_messages := fun _ => ["starting debug server"];
    debug_result := fun _ => None;
    kubeconfig := kubeconfig healthy;
    manager_result := fun _ _ => None;
    clientset_result := fun _ => None;
    controller_result := fun _ _ _ => None;
    webhook_result := fun _ _ => None;
    start_result := fun _ => None |} in
  let h := run env [MainT; MainT; SideT; MainT; SideT; SideT; MainT] in
  debug_serves env /\
  log (side_events h) = [LogInfo setupLog "starting debug server"] /\
  exits (side_events h) = [] /\
  prefix (log (side_events h))
    (map (fun msg => LogInfo setupLog msg) (debug_messages env debugAddr)) /\
  Forall (fun entry => is_error_line entry = false) (log (side_events h)).
Proof.
  intros env h. split; [reflexivity|]. split; [reflexivity|].
  exact (serving_debug_server_harmless env
           [MainT; MainT; SideT; MainT; SideT; SideT; MainT] eq_refl).
Defined.

(** ** The order of start-up *)

(** X11: the run loop is entered once at most, by the manager that was
    built from the flags and the configuration found, after the sink and
    the recorder were set up and every registration of the mode, made with
    that same manager, has succeeded; the first line main has logged by
    then is "starting manager". *)
Theorem run_loop_after_startup (env : Env) (sched : list Tid) (m : Manager) :
  let h := run env sched in
  let tr := events h in
  In m (starts tr) ->
  exists fs c,
    parsed_flags env = Some fs /\ kubeconfig env = Some c /\
    m = manager_of fs c /\ starts tr = [m] /\
    In (c, options_of fs, None) (manager_calls tr) /\
    sinks tr = [(1, the_sink c)] /\ recorders tr = [the_recorder] /\
    (map fst (attempts tr) = reconciliation_mode \/
     map fst (attempts tr) = webhook_mode) /\
    Forall (fun a => snd a = None) (attempts tr) /\
    Forall (fun x => snd (fst x) = m) (reconcilers tr) /\
    hd_error (log (main_events h)) = Some (LogInfo setupLog "starting manager").
Proof.
  intros h tr. subst tr h.
  every_prefix env sched; try tauto; intros Hin; one_of Hin;
    exists fs, c;
    (repeat (split; [solve [assumption | reflexivity | left; reflexivity
                           | auto | repeat constructor]|]));
    reflexivity.
Qed.

Lemma run_loop_after_startup_witness :
  let h := run admission (main_alone 16) in
  let tr := events h in
  let m := manager_of [("metrics-addr", VString ":8080");
                       ("enable-leader-election", VBool true);
                       ("webhook-port", VInt 9443)]
                      {| Host := "https://10.96.0.1:443" |} in
  In m (starts tr) /\
  exists fs c,
    parsed_flags admission = Some fs /\ kubeconfig admission = Some c /\
    m = manager_of fs c /\ starts tr = [m] /\
    In (c, options_of fs, None) (manager_calls tr) /\
    sinks tr = [(1, the_sink c)] /\ recorders tr = [the_recorder] /\
    (map fst (attempts tr) = reconciliation_mode \/
     map fst (attempts tr) = webhook_mode) /\
    Forall (fun a => snd a = None) (attempts tr) /\
    Forall (fun x => snd (fst x) = m) (reconcilers tr) /\
    hd_error (log (main_events h)) = Some (LogInfo setupLog "starting manager").
Proof.
  intros h tr m.
  assert (H : In m (starts tr)) by (vm_compute; left; reflexivity).
  split; [exact H|].
  exact (run_loop_after_startup admission (main_alone 16) m H).
Defined.

Lemma prefix_app_cases {A} (p a b : list A) :
  prefix p (a ++ b) -> prefix p a \/ exists q, p = a ++ q /\ prefix q b.
Proof.
  revert p. induction a as [|x a IH]; intros p H; simpl in *.
  - right. now exists p.
  - apply prefix_cons_inv in H as [->|(q & -> & H)]; [left; apply prefix_nil|].
    apply IH in H as [H|(q' & -> & H)].
    + left. now apply prefix_cons.
    + right. now exists q'.
Qed.

Lemma after_error_info (msgs : list string) (rest : list Event) :
  after_error (map (fun msg => EvLog (LogInfo setupLog msg)) msgs ++ rest)
  = after_error rest.
Proof. induction msgs; simpl; auto. Qed.

(** X12: neither thread goes on after it has logged an error: what follows
    the first error line of main, and of the goroutine, is nothing or the
    exit with status 1 alone. *)
Theorem nothing_after_error (env : Env) (sched : list Tid) :
  let h := run env sched in
  (after_error (main_events h) = [] \/ after_error (main_events h) = [EvExit 1]) /\
  (after_error (side_events h) = [] \/ after_error (side_events h) = [EvExit 1]).
Proof.
  intros h. subst h. split.
  - every_prefix env sched; auto.
  - pose proof (run_side_prefix env sched) as Hp.
    unfold debug_path in Hp. apply prefix_app_cases in Hp as [[rest Hp]|(q & -> & Hq)].
    + left.
      revert rest Hp. generalize (side_events (run env sched)) as p.
      induction (debug_messages env debugAddr) as [|x l IH]; intros p rest Hp.
      * symmetry in Hp. simpl in Hp. apply app_eq_nil in Hp as [-> _]. reflexivity.
      * destruct p as [|e p]; [reflexivity|].
        simpl in Hp. injection Hp as <- Hp. simpl. now apply (IH p rest).
    + rewrite after_error_info.
      destruct (debug_result env debugAddr); unfold fatal in Hq;
        prefix_cases Hq; simpl; auto.
Qed.

(** X13: a command line the flag set rejects ends the process before main
    does anything else: the execution holds the exit and nothing more. *)
Theorem rejected_command_line (env : Env) (sched : list Tid) :
  parsed_flags env = None ->
  let h := run env sched in
  side_events h = [] /\
  (events h = [] \/ exists code, events h = [EvExit code]).
Proof.
  intros Hfs h. subst h.
  assert (Hside : side_events (run env sched) = []).
  { destruct (side_events (run env sched)) as [|e l] eqn:E; [reflexivity|].
    assert (Hne : side_events (run env sched) <> []) by (rewrite E; discriminate).
    apply interleave_side_after_go in Hne.
    change (In (EvGo DebugServer) (main_events (run env sched))) in Hne.
    exfalso. revert Hne.
    every_prefix env sched; try same_flags; intros Hgo; one_of Hgo. }
  split; [exact Hside|].
  assert (Hev : events (run env sched) = main_events (run env sched)).
  { revert Hside. unfold events, main_events, side_events.
    induction (run env sched) as [|[[] e] h IH]; simpl; intros H;
      [reflexivity | | discriminate].
    unfold is_main, is_side in *; simpl in *. now rewrite IH. }
  rewrite Hev.
  every_prefix env sched; try same_flags; eauto.
Qed.

Lemma rejected_command_line_witness :
  let env := with_args [("webhook-port", VString "https")] healthy in
  let h := run env [MainT; SideT; MainT] in
  parsed_flags env = None /\
  side_events h = [] /\
  (events h = [] \/ exists code, events h = [EvExit code]).
Proof.
  intros env h. split; [reflexivity|].
  exact (rejected_command_line env [MainT; SideT; MainT] eq_refl).
Defined.

(** ** The port *)

(** X15: the port the manager is built with decides the mode: every
    registration attempted is that of a reconciler when the port is 0 and
    that of a webhook when it is not. *)
Theorem mode_follows_manager_port (env : Env) (sched : list Tid)
    (c : RestConfig) (o : Options) (res : option Error) :
  let tr := events (run env sched) in
  In (c, o, res) (manager_calls tr) ->
  Forall (fun a => match fst a with
                   | Controller _ => Port o = 0%Z
                   | Webhook _ => Port o <> 0%Z
                   end) (attempts tr).
Proof.
  intros tr. subst tr.
  every_prefix env sched; try tauto; intros Hin; one_of Hin;
    repeat constructor; simpl; assumption.
Qed.

Lemma mode_follows_manager_port_witness :
  let tr := events (run admission (main_alone 11)) in
  let c := {| Host := "https://10.96.0.1:443" |} in
  let o := options_of [("metrics-addr", VString ":8080");
                       ("enable-leader-election", VBool true);
                       ("webhook-port", VInt 9443)] in
  In (c, o, None) (manager_calls tr) /\
  attempts tr = [(Webhook MetalCluster, None); (Webhook MetalMachine, None)] /\
  Forall (fun a => match fst a with
                   | Controller _ => Port o = 0%Z
                   | Webhook _ => Port o <> 0%Z
                   end) (attempts tr).
Proof.
  intros tr c o.
  assert (H : In (c, o, None) (manager_calls tr)) by (vm_compute; left; reflexivity).
  split; [exact H|]. split; [reflexivity|].
  exact (mode_follows_manager_port admission (main_alone 11) c o None H).
Defined.
